(** * dw-image: the zoomable image component, as a state machine

    A shallow embedding of the [DwImage] custom element of [src/dw-image.js]
    (the last and complete version of the class in that file): its reactive
    properties, its event handlers, Lit's batched property updates with the
    [updated] callback, the overlay template and the calls it makes to the
    host platform's fullscreen API.

    JavaScript values are modelled as the code uses them: a property that may
    be [undefined] is an [option], conditions go through JavaScript
    truthiness, [||] returns one of its operands, [===] is strict equality.
    Handlers thread an accumulator holding the element, the set of reactive
    properties changed in the current batch, the events dispatched on
    [window] and the timers registered; the update callback, which only
    reads the element, is a run of platform calls and dispatches. *)

From Stdlib Require Import Bool List String ZArith Lia.
Import ListNotations.
Local Open Scope string_scope.
Local Open Scope list_scope.
Local Open Scope bool_scope.

(** ** JavaScript values *)

Module Js.

(** Truthiness of a value that is [undefined], [false] or [true]. *)
Definition truthy (v : option bool) : bool :=
  match v with
  | Some true => true
  | _ => false
  end.

(** Truthiness of a value that is [undefined] or a string: the empty string
    is falsy. *)
Definition truthy_str (v : option string) : bool :=
  match v with
  | None => false
  | Some EmptyString => false
  | Some (String _ _) => true
  end.

(** [a || b] on such values. *)
Definition or_else (a b : option string) : option string :=
  if truthy_str a then a else b.

(** [a === b] on [undefined]/booleans. *)
Definition strict_eq (a b : option bool) : bool :=
  match a, b with
  | None, None => true
  | Some x, Some y => Bool.eqb x y
  | _, _ => false
  end.

(** [v === s] for a string literal [s]. *)
Definition is_str (v : option string) (s : string) : bool :=
  match v with
  | Some x => String.eqb x s
  | None => false
  end.

(** [v === n] for a number literal [n]. *)
Definition is_num (v : option Z) (n : Z) : bool :=
  match v with
  | Some x => Z.eqb x n
  | None => false
  end.

End Js.

(** ** The element and its surroundings *)

(** The reactive properties of [static get properties()]; the private ones
    and [disableZoom] start [undefined], the constructor sets [auto] and
    [loading]. *)
Record DwImage := mkDwImage {
  src : option string;
  title : option string;
  auto : option string;
  loading : option string;
  disableZoom : option bool;
  zoomSrc : option string;
  _isZoomMode : option bool;
  _fullScreen : option bool
}.

(** The two reactive properties the handlers assign. *)
Inductive PropertyKey := key_isZoomMode | key_fullScreen.

Definition PropertyKey_eqb (a b : PropertyKey) : bool :=
  match a, b with
  | key_isZoomMode, key_isZoomMode => true
  | key_fullScreen, key_fullScreen => true
  | _, _ => false
  end.

(** [changedProperties.has(k)] *)
Definition has (k : PropertyKey) (changed : list PropertyKey) : bool :=
  existsb (PropertyKey_eqb k) changed.

(** [detail] of the three custom events dispatched on [window]. *)
Inductive CustomEvent :=
| dw_image_opened (image : option string)
| dw_image_closed (image : option string) (ux : string)
| dw_image_fullscreen (image : option string) (enabled : bool).

(** The fullscreen entry points of the platform the code may call. *)
Inductive PlatformCall :=
| call_requestFullscreen
| call_webkitRequestFullscreen
| call_msRequestFullscreen
| call_exitFullscreen
| call_webkitExitFullscreen
| call_mozCancelFullScreen.

(** What a handler does to the outside, in order. *)
Inductive Effect :=
| Dispatch (e : CustomEvent)
| Platform (c : PlatformCall).

(** The part of [document] the code reads: whether an element is fullscreen
    and which exit functions exist. *)
Record Document := mkDocument {
  fullscreenElement : bool;
  exitFullscreen : bool;
  webkitExitFullscreen : bool;
  msExitFullscreen : bool;
  mozCancelFullScreen : bool
}.

(** Which request functions an element of the platform has. *)
Record ElementApi := mkElementApi {
  requestFullscreen : bool;
  webkitRequestFullscreen : bool;
  msRequestFullscreen : bool
}.

(** An entry of an event's propagation path; [document] and [window] have
    no [tagName]. *)
Record Element := mkElement {
  tagName : option string;
  id : option string
}.

Record MouseEvent := mkMouseEvent {
  composedPath : option (list Element);
  path : option (list Element)
}.

(** The handler reads [e.keycode] (sic) and [e.key]. *)
Record KeyboardEvent := mkKeyboardEvent {
  keycode : option Z;
  key : option string
}.

(** ** Handlers: state passing *)

(** What a handler works on. [timeouts] are the delays of the timers it
    registered: the only callback passed to [setTimeout] is the deferred
    close of [_closeZoomImage]. *)
Record Acc := mkAcc {
  this : DwImage;
  changedProperties : list PropertyKey;
  effects : list Effect;
  timeouts : list Z
}.

Definition enter (el : DwImage) : Acc :=
  {| this := el; changedProperties := []; effects := []; timeouts := [] |}.

Definition with_isZoomMode (v : option bool) (el : DwImage) : DwImage :=
  {| src := src el; title := title el; auto := auto el;
     loading := loading el; disableZoom := disableZoom el;
     zoomSrc := zoomSrc el; _isZoomMode := v; _fullScreen := _fullScreen el |}.

Definition with_fullScreen (v : option bool) (el : DwImage) : DwImage :=
  {| src := src el; title := title el; auto := auto el;
     loading := loading el; disableZoom := disableZoom el;
     zoomSrc := zoomSrc el; _isZoomMode := _isZoomMode el; _fullScreen := v |}.

(** [changedProperties.set(k, old)] unless the key is there already. *)
Definition record_change (k : PropertyKey) (changed : list PropertyKey)
  : list PropertyKey :=
  if has k changed then changed else changed ++ [k].

(** Lit's property setter: a value that differs ([!==]) from the old one is
    stored and its key recorded for the next update. *)
Definition set_isZoomMode (v : option bool) (a : Acc) : Acc :=
  if Js.strict_eq (_isZoomMode (this a)) v then a
  else
    {| this := with_isZoomMode v (this a);
       changedProperties := record_change key_isZoomMode (changedProperties a);
       effects := effects a;
       timeouts := timeouts a |}.

Definition set_fullScreen (v : option bool) (a : Acc) : Acc :=
  if Js.strict_eq (_fullScreen (this a)) v then a
  else
    {| this := with_fullScreen v (this a);
       changedProperties := record_change key_fullScreen (changedProperties a);
       effects := effects a;
       timeouts := timeouts a |}.

Definition emit (x : Effect) (a : Acc) : Acc :=
  {| this := this a; changedProperties := changedProperties a;
     effects := effects a ++ [x]; timeouts := timeouts a |}.

(** [window.dispatchEvent(new CustomEvent(...))] *)
Definition dispatchEvent (e : CustomEvent) : Acc -> Acc := emit (Dispatch e).

(** [setTimeout(() => {...}, delay)] *)
Definition setTimeout (delay : Z) (a : Acc) : Acc :=
  {| this := this a; changedProperties := changedProperties a;
     effects := effects a; timeouts := timeouts a ++ [delay] |}.

(** *** The overlay template *)

Inductive ToggleButton := exit_full_screen | full_screen.

(** What [_zoomImageTemplate] renders: one of the two toggle buttons, the
    close button (always), and the zoomed image. *)
Record Overlay := mkOverlay {
  toggle : ToggleButton;
  zoom_img_title : option string;
  zoom_img_src : option string
}.

Definition _zoomImageTemplate (el : DwImage) : option Overlay :=
  if negb (Js.truthy (_isZoomMode el)) || Js.truthy (disableZoom el) then None
  else
    Some {| toggle := if Js.truthy (_fullScreen el) then exit_full_screen
                      else full_screen;
            zoom_img_title := title el;
            zoom_img_src := Js.or_else (zoomSrc el) (src el) |}.

(** [this.renderRoot?.querySelector('.overlay')]: the overlay element, when
    the last render produced one, with the request functions the platform
    gives its elements. *)
Definition _requstedFullScreenEl (api : ElementApi) (el : DwImage)
  : option ElementApi :=
  match _zoomImageTemplate el with
  | Some _ => Some api
  | None => None
  end.

(** *** The update callback

    [updated] and the two functions it calls only read the element; they
    call the platform, dispatch events and may throw. A run of such code is
    what it put out, in order, and how it completed. *)

Inductive Completion := Returned | ThrewTypeError.

Definition Run := (list Effect * Completion)%type.

Definition done : Run := ([], Returned).
Definition throw : Run := ([], ThrewTypeError).
Definition call (c : PlatformCall) : Run := ([Platform c], Returned).
Definition dispatch (e : CustomEvent) : Run := ([Dispatch e], Returned).

(** Sequencing: what follows a throw does not run. *)
Definition and_then (r1 r2 : Run) : Run :=
  match r1 with
  | (out, Returned) => (out ++ fst r2, snd r2)
  | (out, ThrewTypeError) => (out, ThrewTypeError)
  end.

Notation "r1 ;; r2" := (and_then r1 r2) (at level 61, right associativity).

(** Reading a property of [null] throws: the overlay element is missing
    when the last render produced no overlay. *)
Definition _requestFullScreen (doc : Document) (api : ElementApi)
  (el : DwImage) : Run :=
  if Js.truthy (_fullScreen el) && negb (fullscreenElement doc) then
    match _requstedFullScreenEl api el with
    | None => throw
    | Some ov =>
        if requestFullscreen ov then call call_requestFullscreen
        else if webkitRequestFullscreen ov then call call_webkitRequestFullscreen
        else if msRequestFullscreen ov then call call_msRequestFullscreen
        else done
    end
  else done.

(** The third branch tests [msExitFullscreen] and calls
    [mozCancelFullScreen], as the source does. *)
Definition _exitFullScreen (doc : Document) (el : DwImage) : Run :=
  if negb (Js.truthy (_fullScreen el)) && fullscreenElement doc then
    if exitFullscreen doc then call call_exitFullscreen
    else if webkitExitFullscreen doc then call call_webkitExitFullscreen
    else if msExitFullscreen doc then
      if mozCancelFullScreen doc then call call_mozCancelFullScreen
      else throw
    else done
  else done.

Definition updated (changed : list PropertyKey) (doc : Document)
  (api : ElementApi) (el : DwImage) : Run :=
  if has key_fullScreen changed && Js.truthy (_isZoomMode el) then
    (if Js.truthy (_fullScreen el) then
       _requestFullScreen doc api el ;;
       dispatch (dw_image_fullscreen (src el) true)
     else done) ;;
    (if negb (Js.truthy (_fullScreen el)) then
       _exitFullScreen doc el ;;
       dispatch (dw_image_fullscreen (src el) false)
     else done)
  else done.

(** *** Event handlers *)

Definition __fullScreenChange (doc : Document) (a : Acc) : Acc :=
  if fullscreenElement doc then set_fullScreen (Some true) a
  else set_fullScreen (Some false) a.

(** [(e.composedPath && e.composedPath()) || e.path || []]: an array, even
    an empty one, is truthy. *)
Definition paths (e : MouseEvent) : list Element :=
  match composedPath e with
  | Some p => p
  | None => match path e with
            | Some p => p
            | None => []
            end
  end.

(** The condition of the [forEach] callback of [__onClick]. *)
Definition is_zoom_ui (el : Element) : bool :=
  Js.is_str (tagName el) "IMG"
  || (Js.is_str (tagName el) "DW-ICON-BUTTON" && Js.is_str (id el) "close-btn")
  || (Js.is_str (tagName el) "DW-ICON-BUTTON" && Js.is_str (id el) "full-screen")
  || (Js.is_str (tagName el) "DW-ICON-BUTTON"
      && Js.is_str (id el) "exit-full-screen").

(** The [forEach] callback, acting on the variable [outsideImageClick]. *)
Definition outside_step (outside : bool) (el : Element) : bool :=
  if is_zoom_ui el then false else outside.

(** The [forEach] loop: the callback returns [undefined], so every entry is
    visited. *)
Definition outsideImageClick (e : MouseEvent) : bool :=
  fold_left outside_step (paths e) true.

Definition __onClick (e : MouseEvent) (a : Acc) : Acc :=
  if Js.truthy (_fullScreen (this a)) then a
  else if outsideImageClick e then
    let a := set_isZoomMode (Some false) a in
    dispatchEvent (dw_image_closed (src (this a)) "OVERLAY_CLICK") a
  else a.

Definition is_escape (e : KeyboardEvent) : bool :=
  Js.is_num (keycode e) 27 || Js.is_str (key e) "Escape"
  || Js.is_str (key e) "Esc".

Definition __keydown (e : KeyboardEvent) (a : Acc) : Acc :=
  if is_escape e then
    if negb (Js.truthy (_isZoomMode (this a))) then a
    else
      let a := set_isZoomMode (Some false) a in
      dispatchEvent (dw_image_closed (src (this a)) "ESC") a
  else a.

Definition _setZoomMode (a : Acc) : Acc :=
  if Js.truthy (disableZoom (this a)) then a
  else
    let a := set_isZoomMode (Some true) a in
    dispatchEvent (dw_image_opened (src (this a))) a.

(** The synchronous part of [_closeZoomImage]. *)
Definition _closeZoomImage (a : Acc) : Acc :=
  let a := if Js.truthy (_fullScreen (this a))
           then set_fullScreen (Some false) a else a in
  setTimeout 100 a.

(** The callback [_closeZoomImage] hands to [setTimeout]. *)
Definition _closeZoomImage_deferred (a : Acc) : Acc :=
  let a := set_isZoomMode (Some false) a in
  dispatchEvent (dw_image_closed (src (this a)) "CLOSE_BUTTON") a.

(** ** The component in its page *)

(** The element between two events, the document, the request functions of
    the platform's elements, and the delays of the pending timers (oldest
    first; all are deferred closes). *)
Record World := mkWorld {
  element : DwImage;
  document : Document;
  elementApi : ElementApi;
  timers : list Z
}.

(** The external events the listeners of [connectedCallback] and of the
    templates react to. A click on a rendered node carries the ancestors of
    that node in its propagation path. [FullscreenChange b] is the platform's
    [fullscreenchange] with [document.fullscreenElement] then being set
    ([b = true]) or empty. [TimerFires] is the oldest pending timer running
    out. *)
Inductive Input :=
| ImgClick (ancestors : list Element)
| FullScreenClick (ancestors : list Element)
| ExitFullScreenClick (ancestors : list Element)
| CloseClick (ancestors : list Element)
| HostClick (e : MouseEvent)
| KeyDown (e : KeyboardEvent)
| FullscreenChange (b : bool)
| TimerFires.

Definition icon_button (name : string) : Element :=
  {| tagName := Some "DW-ICON-BUTTON"; id := Some name |}.

Definition inline_img : Element := {| tagName := Some "IMG"; id := Some "" |}.

(** The click event of a standards-conforming platform for a click on
    [target]: [composedPath()] exists and starts at the target. *)
Definition click_on (target : Element) (ancestors : list Element) : MouseEvent :=
  {| composedPath := Some (target :: ancestors); path := None |}.

Definition set_fullscreenElement (b : bool) (d : Document) : Document :=
  {| fullscreenElement := b;
     exitFullscreen := exitFullscreen d;
     webkitExitFullscreen := webkitExitFullscreen d;
     msExitFullscreen := msExitFullscreen d;
     mozCancelFullScreen := mozCancelFullScreen d |}.

(** The listeners an input runs, target first, then the host's
    [__onClick] for the clicks that bubble to it. [None]: the node clicked
    is not rendered, or no timer is pending. The update is run once, after
    the last listener; for the clicks with two listeners the host's one
    changes nothing ([onClick_on_control] below), so an update between the
    two would do the same. *)
Definition listeners (i : Input) (w : World) : option (Document * Acc) :=
  let a := enter (element w) in
  let doc := document w in
  match i with
  | ImgClick anc =>
      Some (doc, __onClick (click_on inline_img anc) (_setZoomMode a))
  | FullScreenClick anc =>
      match _zoomImageTemplate (element w) with
      | Some {| toggle := full_screen |} =>
          Some (doc, __onClick (click_on (icon_button "full-screen") anc)
                       (set_fullScreen (Some true) a))
      | _ => None
      end
  | ExitFullScreenClick anc =>
      match _zoomImageTemplate (element w) with
      | Some {| toggle := exit_full_screen |} =>
          Some (doc, __onClick (click_on (icon_button "exit-full-screen") anc)
                       (set_fullScreen (Some false) a))
      | _ => None
      end
  | CloseClick anc =>
      match _zoomImageTemplate (element w) with
      | Some _ =>
          Some (doc, __onClick (click_on (icon_button "close-btn") anc)
                       (_closeZoomImage a))
      | None => None
      end
  | HostClick e => Some (doc, __onClick e a)
  | KeyDown e => Some (doc, __keydown e a)
  | FullscreenChange b =>
      let doc := set_fullscreenElement b doc in
      Some (doc, __fullScreenChange doc a)
  | TimerFires =>
      match timers w with
      | [] => None
      | _ :: _ => Some (doc, _closeZoomImage_deferred a)
      end
  end.

(** Lit's update after the listeners: when a property changed, the element
    re-renders and [updated] runs with the batch's keys. *)
Definition performUpdate (doc : Document) (api : ElementApi) (a : Acc) : Run :=
  match changedProperties a with
  | [] => done
  | changed => updated changed doc api (this a)
  end.

Record Outcome := mkOutcome {
  next : World;
  output : list Effect;
  completion : Completion
}.

Definition remaining (i : Input) (ts : list Z) : list Z :=
  match i with
  | TimerFires => tl ts
  | _ => ts
  end.

Definition step (i : Input) (w : World) : option Outcome :=
  match listeners i w with
  | None => None
  | Some (doc, a) =>
      let r := performUpdate doc (elementApi w) a in
      Some {| next := {| element := this a;
                         document := doc;
                         elementApi := elementApi w;
                         timers := remaining i (timers w) ++ timeouts a |};
              output := effects a ++ fst r;
              completion := snd r |}
  end.

(** A sequence of inputs, with everything it put out. *)
Fixpoint run (inputs : list Input) (w : World) : option (World * list Effect) :=
  match inputs with
  | [] => Some (w, [])
  | i :: rest =>
      match step i w with
      | None => None
      | Some o =>
          match run rest (next o) with
          | None => None
          | Some (w', out) => Some (w', output o ++ out)
          end
      end
  end.

(** The element as the constructor leaves it, with the attributes the page
    gave it. *)
Definition constructed (src_ zoomSrc_ title_ : option string)
  (disableZoom_ : option bool) : DwImage :=
  {| src := src_; title := title_; auto := Some "height";
     loading := Some "lazy"; disableZoom := disableZoom_; zoomSrc := zoomSrc_;
     _isZoomMode := None; _fullScreen := None |}.

Definition connected (el : DwImage) (doc : Document) (api : ElementApi) : World :=
  {| element := el; document := doc; elementApi := api; timers := [] |}.

(** ** The view state of the specification *)

Inductive Mode := Windowed | Fullscreen.

Inductive ViewState := Closed | Zoomed (m : Mode).

(** The Fullscreen flag is [_fullScreen], read as the code reads it. *)
Definition fullscreen_flag (el : DwImage) : bool := Js.truthy (_fullScreen el).

Definition viewState (el : DwImage) : ViewState :=
  if Js.truthy (_isZoomMode el) then
    Zoomed (if fullscreen_flag el then Fullscreen else Windowed)
  else Closed.

(** Selections from what a step puts out. *)
Definition dispatched (out : list Effect) : list CustomEvent :=
  flat_map (fun x => match x with Dispatch e => [e] | Platform _ => [] end) out.

Definition is_request (x : Effect) : bool :=
  match x with
  | Platform call_requestFullscreen
  | Platform call_webkitRequestFullscreen
  | Platform call_msRequestFullscreen => true
  | _ => false
  end.

Definition is_closed_event (e : CustomEvent) : bool :=
  match e with dw_image_closed _ _ => true | _ => false end.

(** The request function [_requestFullScreen] picks on an element. *)
Definition first_request (api : ElementApi) : list PlatformCall :=
  if requestFullscreen api then [call_requestFullscreen]
  else if webkitRequestFullscreen api then [call_webkitRequestFullscreen]
  else if msRequestFullscreen api then [call_msRequestFullscreen]
  else [].

(** What [updated] puts out is platform calls and fullscreen
    notifications. *)
Definition from_update (x : Effect) : Prop :=
  match x with
  | Platform _ => True
  | Dispatch (dw_image_fullscreen _ _) => True
  | Dispatch _ => False
  end.

(** What a listener puts out is an opened or a closed notification for the
    element's [src], the latter with one of three [ux] values. *)
Definition from_listener (el : DwImage) (x : Effect) : Prop :=
  match x with
  | Dispatch (dw_image_opened image) => image = src el
  | Dispatch (dw_image_closed image ux) =>
      image = src el
      /\ (ux = "ESC" \/ ux = "OVERLAY_CLICK" \/ ux = "CLOSE_BUTTON")
  | _ => False
  end.

(** ** A page to run examples on *)

Definition modern_document : Document :=
  {| fullscreenElement := false; exitFullscreen := true;
     webkitExitFullscreen := false; msExitFullscreen := false;
     mozCancelFullScreen := false |}.

Definition modern_api : ElementApi :=
  {| requestFullscreen := true; webkitRequestFullscreen := false;
     msRequestFullscreen := false |}.

Definition a_jpg : DwImage :=
  constructed (Some "a.jpg") (Some "a_hi.jpg") None None.

Definition page : World := connected a_jpg modern_document modern_api.

Definition overlay_div : Element := {| tagName := Some "DIV"; id := Some "" |}.

Definition host : Element := {| tagName := Some "DW-IMAGE"; id := Some "" |}.

Definition no_tag : Element := {| tagName := None; id := None |}.

Definition escape_key : KeyboardEvent :=
  {| keycode := None; key := Some "Escape" |}.

Definition overlay_click : MouseEvent :=
  {| composedPath := Some [overlay_div; no_tag; host; no_tag; no_tag];
     path := None |}.

Definition zoomed_windowed_el : DwImage :=
  {| src := Some "a.jpg"; title := None; auto := Some "height";
     loading := Some "lazy"; disableZoom := None; zoomSrc := Some "a_hi.jpg";
     _isZoomMode := Some true; _fullScreen := None |}.

Definition zoomed_fullscreen_el : DwImage :=
  {| src := Some "a.jpg"; title := None; auto := Some "height";
     loading := Some "lazy"; disableZoom := None; zoomSrc := Some "a_hi.jpg";
     _isZoomMode := Some true; _fullScreen := Some true |}.

(** The page after a click on the inline image. *)
Definition zoomed_windowed_page : World :=
  connected zoomed_windowed_el modern_document modern_api.

(** The page after the toggle was clicked and the platform confirmed. *)
Definition zoomed_fullscreen_page : World :=
  connected zoomed_fullscreen_el (set_fullscreenElement true modern_document)
    modern_api.

(** The example page with zoom disabled. *)
Definition disabled_page : World :=
  connected (constructed (Some "a.jpg") (Some "a_hi.jpg") None (Some true))
    modern_document modern_api.

(** The outcome of a click on the overlay of the windowed example page, and
    of a click on the close button of the fullscreen one. *)
Definition closed_by_overlay_click : Outcome :=
  {| next := connected (with_isZoomMode (Some false) zoomed_windowed_el)
               modern_document modern_api;
     output := [Dispatch (dw_image_closed (Some "a.jpg") "OVERLAY_CLICK")];
     completion := Returned |}.

Definition close_clicked_in_fullscreen : Outcome :=
  {| next := {| element := with_fullScreen (Some false) zoomed_fullscreen_el;
                document := set_fullscreenElement true modern_document;
                elementApi := modern_api;
                timers := [100%Z] |};
     output := [Platform call_exitFullscreen;
                Dispatch (dw_image_fullscreen (Some "a.jpg") false)];
     completion := Returned |}.

(** ** The rest of the class: rendering and the listeners' lifecycle *)

(** The inline [<img class="image">] of [render]: [title] falls back to the
    empty string, the other bindings pass the properties through. *)
Record InlineImg := mkInlineImg {
  img_title : option string;
  img_src : option string;
  img_loading : option string;
  img_disableZoom : option bool
}.

Record Rendered := mkRendered {
  inline : InlineImg;
  overlay : option Overlay
}.

Definition render (el : DwImage) : Rendered :=
  {| inline := {| img_title := Js.or_else (title el) (Some "");
                  img_src := src el;
                  img_loading := loading el;
                  img_disableZoom := disableZoom el |};
     overlay := _zoomImageTemplate el |}.

(** Where the class registers listeners, and the three functions it binds
    in the constructor. *)
Inductive EventTarget := target_this | target_document | target_window.

Inductive BoundListener :=
| bound__onClick
| bound__keydown
| bound__fullScreenChange.

Record Registration := mkRegistration {
  reg_target : EventTarget;
  reg_type : string;
  reg_listener : BoundListener
}.

Definition EventTarget_eqb (a b : EventTarget) : bool :=
  match a, b with
  | target_this, target_this => true
  | target_document, target_document => true
  | target_window, target_window => true
  | _, _ => false
  end.

Definition BoundListener_eqb (a b : BoundListener) : bool :=
  match a, b with
  | bound__onClick, bound__onClick => true
  | bound__keydown, bound__keydown => true
  | bound__fullScreenChange, bound__fullScreenChange => true
  | _, _ => false
  end.

Definition Registration_eqb (a b : Registration) : bool :=
  EventTarget_eqb (reg_target a) (reg_target b)
  && String.eqb (reg_type a) (reg_type b)
  && BoundListener_eqb (reg_listener a) (reg_listener b).

(** [target.addEventListener(type, f)]: a listener already registered for
    the type on the target is not added again. *)
Definition addEventListener (r : Registration) (regs : list Registration)
  : list Registration :=
  if existsb (Registration_eqb r) regs then regs else regs ++ [r].

(** [target.removeEventListener(type, f)] *)
Definition removeEventListener (r : Registration) (regs : list Registration)
  : list Registration :=
  filter (fun x => negb (Registration_eqb r x)) regs.

Definition click_registration : Registration :=
  {| reg_target := target_this; reg_type := "click";
     reg_listener := bound__onClick |}.

Definition keydown_registration : Registration :=
  {| reg_target := target_document; reg_type := "keydown";
     reg_listener := bound__keydown |}.

Definition fullscreenchange_registration : Registration :=
  {| reg_target := target_window; reg_type := "fullscreenchange";
     reg_listener := bound__fullScreenChange |}.

Definition connectedCallback (regs : list Registration) : list Registration :=
  addEventListener fullscreenchange_registration
    (addEventListener keydown_registration
       (addEventListener click_registration regs)).

Definition disconnectedCallback (regs : list Registration)
  : list Registration :=
  removeEventListener fullscreenchange_registration
    (removeEventListener keydown_registration
       (removeEventListener click_registration regs)).

Definition registered (r : Registration) (regs : list Registration) : bool :=
  existsb (Registration_eqb r) regs.

(** An event on the page, given the listeners registered. A click on the
    host, a key press on the document and a fullscreen change on the window
    run the component's listener only if it is registered; the fullscreen
    change happens to the document all the same. A timer runs out whatever
    is registered. A click on a node of the templates is a click on the
    page: it is there only for an element in the document, whose host
    listener is registered; for an element taken out of the document there
    is no such input ([None]). *)
Definition deliver (regs : list Registration) (i : Input) (w : World)
  : option Outcome :=
  let idle (w' : World) :=
    Some {| next := w'; output := []; completion := Returned |} in
  match i with
  | HostClick _ =>
      if registered click_registration regs then step i w else idle w
  | KeyDown _ =>
      if registered keydown_registration regs then step i w else idle w
  | FullscreenChange b =>
      if registered fullscreenchange_registration regs then step i w
      else idle {| element := element w;
                   document := set_fullscreenElement b (document w);
                   elementApi := elementApi w;
                   timers := timers w |}
  | TimerFires => step i w
  | ImgClick _ | FullScreenClick _ | ExitFullScreenClick _ | CloseClick _ =>
      if registered click_registration regs then step i w else None
  end.

(** ** Vocabulary for the properties of whole runs *)

(** The exit function [_exitFullScreen] calls on a document that has the
    standard or the webkit one. *)
Definition first_exit (doc : Document) : list PlatformCall :=
  if exitFullscreen doc then [call_exitFullscreen]
  else if webkitExitFullscreen doc then [call_webkitExitFullscreen]
  else [].

Definition is_fullscreen_event (e : CustomEvent) : bool :=
  match e with dw_image_fullscreen _ _ => true | _ => false end.

Definition is_close_button_event (e : CustomEvent) : bool :=
  match e with
  | dw_image_closed _ ux => String.eqb ux "CLOSE_BUTTON"
  | _ => false
  end.

Definition is_CloseClick (i : Input) : bool :=
  match i with CloseClick _ => true | _ => false end.

Definition is_TimerFires (i : Input) : bool :=
  match i with TimerFires => true | _ => false end.

(** What a listener may dispatch on input [i], from element [el] to
    element [el']: an opened notification only on a click on the inline
    image, a closed one only on Escape, on a click reaching the host and on
    a timer, each with its own [ux]. *)
Definition listener_event (i : Input) (el el' : DwImage) (ev : CustomEvent)
  : Prop :=
  match ev with
  | dw_image_opened im =>
      im = src el
      /\ (exists anc, i = ImgClick anc)
      /\ Js.truthy (disableZoom el) = false
      /\ _isZoomMode el' = Some true
  | dw_image_closed im ux =>
      im = src el
      /\ _isZoomMode el' = Some false
      /\ match i with
         | KeyDown e => ux = "ESC" /\ is_escape e = true
         | HostClick _ => ux = "OVERLAY_CLICK"
         | TimerFires => ux = "CLOSE_BUTTON"
         | _ => False
         end
  | dw_image_fullscreen _ _ => False
  end.

(** A fullscreen document of a platform that has [msExitFullscreen] only. *)
Definition ms_only_page : World :=
  connected zoomed_fullscreen_el
    {| fullscreenElement := true; exitFullscreen := false;
       webkitExitFullscreen := false; msExitFullscreen := true;
       mozCancelFullScreen := false |}
    {| requestFullscreen := false; webkitRequestFullscreen := false;
       msRequestFullscreen := true |}.

(** The outcome of a click on the toggle of the windowed example page. *)
Definition toggle_clicked : Outcome :=
  {| next := connected (with_fullScreen (Some true) zoomed_windowed_el)
               modern_document modern_api;
     output := [Platform call_requestFullscreen;
                Dispatch (dw_image_fullscreen (Some "a.jpg") true)];
     completion := Returned |}.

(** The windowed example page with a close pending. *)
Definition close_pending_page : World :=
  {| element := zoomed_windowed_el; document := modern_document;
     elementApi := modern_api; timers := [100%Z] |}.

Definition is_request_call (c : PlatformCall) : bool :=
  match c with
  | call_requestFullscreen
  | call_webkitRequestFullscreen
  | call_msRequestFullscreen => true
  | _ => false
  end.

Definition is_exit_call (c : PlatformCall) : bool :=
  negb (is_request_call c).

(** The disabled example page after a click on the image, Escape, a click
    on the host and a fullscreen change of the document. *)
Definition disabled_page_after_run : World :=
  {| element := with_fullScreen (Some true)
                  (with_isZoomMode (Some false) (element disabled_page));
     document := set_fullscreenElement true modern_document;
     elementApi := modern_api;
     timers := [] |}.

(** The page as loaded after another element of the document went
    fullscreen: the view is Closed and the Fullscreen flag is set. *)
Definition closed_flagged_page : World :=
  connected (with_fullScreen (Some true) a_jpg)
    (set_fullscreenElement true modern_document) modern_api.

(** * Properties *)

(** ** Propagation paths *)

Lemma outside_false_absorbs (l : list Element) :
  fold_left outside_step l false = false.
Proof.
  induction l as [|el l IH]; simpl; [reflexivity|].
  unfold outside_step at 2. destruct (is_zoom_ui el); exact IH.
Qed.

Lemma outside_fold_forallb (l : list Element) :
  fold_left outside_step l true = forallb (fun el => negb (is_zoom_ui el)) l.
Proof.
  induction l as [|el l IH]; simpl; [reflexivity|].
  unfold outside_step at 2. destruct (is_zoom_ui el); simpl.
  - apply outside_false_absorbs.
  - exact IH.
Qed.

(** The loop of [__onClick] decides whether no entry of the path is the
    image or a known control. *)
Lemma outsideImageClick_spec (e : MouseEvent) :
  outsideImageClick e = true <->
  (forall el, In el (paths e) -> is_zoom_ui el = false).
Proof.
  unfold outsideImageClick.
  rewrite outside_fold_forallb, forallb_forall. split; intros H el Hin.
  - apply negb_true_iff. now apply H.
  - apply negb_true_iff. now apply H.
Qed.

Lemma outsideImageClick_on_control (t : Element) (anc : list Element) :
  is_zoom_ui t = true -> outsideImageClick (click_on t anc) = false.
Proof.
  intros Ht. unfold outsideImageClick, click_on, paths. simpl.
  unfold outside_step at 2. rewrite Ht. apply outside_false_absorbs.
Qed.

(** A click on the image or on a control reaches the host's listener and
    changes nothing there. *)
Lemma onClick_on_control (t : Element) (anc : list Element) (a : Acc) :
  is_zoom_ui t = true -> __onClick (click_on t anc) a = a.
Proof.
  intros Ht. unfold __onClick.
  rewrite (outsideImageClick_on_control t anc Ht).
  now destruct (Js.truthy _).
Qed.

(** ** Records *)

Lemma world_eta (w : World) :
  {| element := element w; document := document w;
     elementApi := elementApi w; timers := timers w |} = w.
Proof. now destruct w. Qed.

Ltac flag v := destruct v as [[|]|]; try discriminate.

Ltac open_world w :=
  let el := fresh "el" in
  let doc := fresh "doc" in
  let api := fresh "api" in
  let ts := fresh "ts" in
  destruct w as [el doc api ts];
  destruct el as [src_ title_ auto_ loading_ dz zsrc zm fs]; simpl in *.

(** ** The update callback *)

(** Case analysis on the innermost scrutinee, until none is left. *)
Ltac break_match :=
  repeat match goal with
    | |- context [match ?c with _ => _ end] =>
        lazymatch c with
        | context [match _ with _ => _ end] => fail
        | _ => destruct c eqn:?; simpl
        end
    end.

Lemma updated_from_update changed doc api el :
  Forall from_update (fst (updated changed doc api el)).
Proof.
  unfold updated, _requestFullScreen, _exitFullScreen. simpl.
  break_match; repeat constructor.
Qed.

(** [_fullScreen] changed to a truthy value in zoom mode, with the overlay
    rendered: the request, if the document has no fullscreen element, then
    the notification, in the same run. *)
Lemma updated_fullScreen_set changed doc api el :
  has key_fullScreen changed = true ->
  Js.truthy (_isZoomMode el) = true ->
  Js.truthy (_fullScreen el) = true ->
  Js.truthy (disableZoom el) = false ->
  updated changed doc api el
  = (map Platform (if fullscreenElement doc then [] else first_request api)
       ++ [Dispatch (dw_image_fullscreen (src el) true)],
     Returned).
Proof.
  intros Hc Hz Hf Hd.
  unfold updated, _requestFullScreen, _requstedFullScreenEl,
    _zoomImageTemplate, first_request.
  rewrite Hc, Hz, Hf, Hd. simpl.
  destruct (fullscreenElement doc); simpl; [reflexivity|].
  destruct (requestFullscreen api); [reflexivity|].
  destruct (webkitRequestFullscreen api); [reflexivity|].
  destruct (msRequestFullscreen api); reflexivity.
Qed.

(** No request goes out unless [_fullScreen] changed to a truthy value while
    the document has no fullscreen element. *)
Lemma updated_no_request changed doc api el :
  has key_fullScreen changed = false
  \/ Js.truthy (_fullScreen el) = false
  \/ fullscreenElement doc = true ->
  filter is_request (fst (updated changed doc api el)) = [].
Proof.
  intros H. unfold updated, _requestFullScreen, _exitFullScreen. simpl.
  destruct (has key_fullScreen changed); simpl; [|reflexivity].
  destruct (Js.truthy (_isZoomMode el)); simpl; [|reflexivity].
  destruct (Js.truthy (_fullScreen el)) eqn:Hf; simpl.
  - destruct H as [H | [H | H]]; try discriminate. rewrite H. reflexivity.
  - break_match; reflexivity.
Qed.

(** ** What the listeners do, input by input *)

Ltac unfold_listeners :=
  unfold listeners;
  try rewrite onClick_on_control by reflexivity;
  unfold _setZoomMode, _closeZoomImage, _closeZoomImage_deferred, __onClick,
    __keydown, __fullScreenChange, set_isZoomMode, set_fullScreen,
    dispatchEvent, emit, setTimeout, enter;
  simpl.

Lemma listeners_effects (i : Input) (w : World) :
  match listeners i w with
  | Some (_, a) => Forall (from_listener (element w)) (effects a)
  | None => True
  end.
Proof.
  destruct i; unfold_listeners; break_match; simpl;
    repeat (apply Forall_cons || apply Forall_nil); simpl; auto 6.
Qed.

(** A listener other than the toggle's leaves no ground for a request in
    the update: [_fullScreen] is unchanged, or falsy, or the document has a
    fullscreen element. *)
Lemma listeners_no_request (i : Input) (w : World) :
  match i with FullScreenClick _ => False | _ => True end ->
  match listeners i w with
  | Some (doc, a) =>
      has key_fullScreen (changedProperties a) = false
      \/ Js.truthy (_fullScreen (this a)) = false
      \/ fullscreenElement doc = true
  | None => True
  end.
Proof.
  intros Hi. destruct i; try contradiction; unfold_listeners;
    unfold _zoomImageTemplate; simpl.
  - break_match; auto.
  - destruct (_fullScreen (element w)) as [[|]|]; simpl; break_match; auto.
  - destruct (_fullScreen (element w)) as [[|]|]; simpl; break_match; auto.
  - break_match; auto.
  - break_match; auto.
  - destruct b; simpl; break_match; auto.
  - break_match; auto.
Qed.

(** The listeners that can turn the Fullscreen flag on. *)
Lemma listeners_flag_on (i : Input) (w : World) :
  fullscreen_flag (element w) = false ->
  match listeners i w with
  | Some (_, a) =>
      fullscreen_flag (this a) = true ->
      i = FullscreenChange true
      \/ ((exists anc, i = FullScreenClick anc)
          /\ viewState (element w) = Zoomed Windowed)
  | None => True
  end.
Proof.
  unfold fullscreen_flag, viewState, fullscreen_flag.
  destruct i; unfold_listeners; unfold _zoomImageTemplate; simpl;
    try destruct b; simpl; break_match; simpl; intros;
    try discriminate; try congruence; eauto.
Qed.

Lemma performUpdate_from_update doc api a :
  Forall from_update (fst (performUpdate doc api a)).
Proof.
  unfold performUpdate. destruct (changedProperties a).
  - constructor.
  - apply updated_from_update.
Qed.

Lemma performUpdate_no_request doc api a :
  has key_fullScreen (changedProperties a) = false
  \/ Js.truthy (_fullScreen (this a)) = false
  \/ fullscreenElement doc = true ->
  filter is_request (fst (performUpdate doc api a)) = [].
Proof.
  intros H. unfold performUpdate. destruct (changedProperties a) eqn:Hc.
  - reflexivity.
  - now apply updated_no_request.
Qed.

Lemma from_listener_no_request el (l : list Effect) :
  Forall (from_listener el) l -> filter is_request l = [].
Proof.
  induction 1 as [|x l Hx _ IH]; simpl; [reflexivity|].
  destruct x as [e|c]; [exact IH | destruct Hx].
Qed.

(** The step in terms of its listeners and the update. *)
Lemma step_inv (i : Input) (w : World) (o : Outcome) :
  step i w = Some o ->
  exists doc a,
    listeners i w = Some (doc, a)
    /\ element (next o) = this a
    /\ document (next o) = doc
    /\ output o = effects a ++ fst (performUpdate doc (elementApi w) a)
    /\ completion o = snd (performUpdate doc (elementApi w) a).
Proof.
  unfold step. destruct (listeners i w) as [[doc a]|]; [|discriminate].
  intros [= <-]. exists doc, a. simpl. repeat split.
Qed.

(** A fullscreen request goes out only in the step of a click on the
    fullscreen toggle. *)
Lemma requests_only_on_toggle (i : Input) (w : World) (o : Outcome) :
  step i w = Some o ->
  match i with FullScreenClick _ => False | _ => True end ->
  filter is_request (output o) = [].
Proof.
  intros Hs Hi. destruct (step_inv i w o Hs) as (doc & a & Hl & _ & _ & Ho & _).
  pose proof (listeners_effects i w) as He.
  pose proof (listeners_no_request i w Hi) as Hn.
  rewrite Hl in He, Hn. rewrite Ho, filter_app.
  rewrite (from_listener_no_request _ _ He).
  now rewrite performUpdate_no_request.
Qed.

(** Every closed notification carries one of three [ux] values. *)
Lemma closed_ux_values (i : Input) (w : World) (o : Outcome) :
  step i w = Some o ->
  forall image ux, In (Dispatch (dw_image_closed image ux)) (output o) ->
    ux = "ESC" \/ ux = "OVERLAY_CLICK" \/ ux = "CLOSE_BUTTON".
Proof.
  intros Hs image ux Hin.
  destruct (step_inv i w o Hs) as (doc & a & Hl & _ & _ & Ho & _).
  rewrite Ho in Hin. apply in_app_or in Hin as [Hin | Hin].
  - pose proof (listeners_effects i w) as He. rewrite Hl in He.
    rewrite Forall_forall in He. now destruct (He _ Hin).
  - pose proof (performUpdate_from_update doc (elementApi w) a) as Hu.
    rewrite Forall_forall in Hu. destruct (Hu _ Hin).
Qed.

(** ** The zoomed image's source *)

(** C7: whenever the overlay is rendered, the zoomed image's source is
    [zoomSrc] when that is present and non-empty, and [src] when [zoomSrc]
    is missing or empty; the overlay is rendered whenever the element is in
    zoom mode and zoom is not disabled. *)
Theorem zoomed_image_source (el : DwImage) :
  Js.truthy (_isZoomMode el) = true ->
  Js.truthy (disableZoom el) = false ->
  exists ov,
    _zoomImageTemplate el = Some ov
    /\ (forall s, zoomSrc el = Some s -> s <> "" -> zoom_img_src ov = Some s)
    /\ (zoomSrc el = None \/ zoomSrc el = Some "" -> zoom_img_src ov = src el).
Proof.
  intros Hz Hd. unfold _zoomImageTemplate. rewrite Hz, Hd. simpl.
  eexists. split; [reflexivity|]. simpl. split.
  - intros s Hs Hne. rewrite Hs. destruct s; [congruence | reflexivity].
  - intros [Hs | Hs]; rewrite Hs; reflexivity.
Qed.

Lemma zoomed_image_source_witness :
  exists ov,
    _zoomImageTemplate zoomed_windowed_el = Some ov
    /\ (forall s, zoomSrc zoomed_windowed_el = Some s -> s <> "" ->
        zoom_img_src ov = Some s)
    /\ (zoomSrc zoomed_windowed_el = None \/ zoomSrc zoomed_windowed_el = Some "" ->
        zoom_img_src ov = src zoomed_windowed_el).
Proof.
  apply (zoomed_image_source zoomed_windowed_el); reflexivity.
Defined.

(** Both branches on the example of the specification. *)
Example zoom_source_present :
  option_map zoom_img_src (_zoomImageTemplate zoomed_windowed_el)
  = Some (Some "a_hi.jpg").
Proof. reflexivity. Qed.

Example zoom_source_empty :
  option_map zoom_img_src
    (_zoomImageTemplate
       {| src := Some "a.jpg"; title := None; auto := None; loading := None;
          disableZoom := Some false; zoomSrc := Some "";
          _isZoomMode := Some true; _fullScreen := None |})
  = Some (Some "a.jpg").
Proof. reflexivity. Qed.

(** ** Escape *)

(** What [__keydown] and the update after it do on Escape in zoom mode,
    whatever [_fullScreen] is: the zoom flag is cleared, nothing else of the
    element changes, one [dw-image-closed] with [ux: 'ESC'] goes out. *)
Lemma escape_in_zoom_mode (w : World) (e : KeyboardEvent) :
  is_escape e = true ->
  Js.truthy (_isZoomMode (element w)) = true ->
  exists o,
    step (KeyDown e) w = Some o
    /\ _isZoomMode (element (next o)) = Some false
    /\ _fullScreen (element (next o)) = _fullScreen (element w)
    /\ output o = [Dispatch (dw_image_closed (src (element w)) "ESC")]
    /\ completion o = Returned
    /\ timers (next o) = timers w.
Proof.
  intros He Hz. open_world w. flag zm.
  unfold step, listeners, __keydown. simpl. rewrite He. simpl.
  eexists. split; [reflexivity|]. simpl.
  repeat split. apply app_nil_r.
Qed.

(** Escape outside zoom mode, and any other key: nothing happens. *)
Lemma keydown_ignored (w : World) (e : KeyboardEvent) :
  is_escape e = false \/ Js.truthy (_isZoomMode (element w)) = false ->
  step (KeyDown e) w = Some {| next := w; output := []; completion := Returned |}.
Proof.
  intros H. rewrite <- (world_eta w) at 2.
  unfold step, listeners, __keydown. simpl.
  destruct (is_escape e).
  - destruct H as [H | H]; [discriminate|]. rewrite H. simpl.
    now rewrite app_nil_r.
  - simpl. now rewrite app_nil_r.
Qed.

(** C5 as stated does not hold: the reason the code sends for Escape is
    ['ESC'], not ['ESCAPE']. Here on the example page, zoomed and windowed. *)
Lemma escape_reason_is_not_ESCAPE :
  viewState (element zoomed_windowed_page) = Zoomed Windowed
  /\ is_escape escape_key = true
  /\ option_map output (step (KeyDown escape_key) zoomed_windowed_page)
     = Some [Dispatch (dw_image_closed (Some "a.jpg") "ESC")]
  /\ option_map output (step (KeyDown escape_key) zoomed_windowed_page)
     <> Some [Dispatch (dw_image_closed (Some "a.jpg") "ESCAPE")].
Proof.
  repeat split; try reflexivity. vm_compute. discriminate.
Qed.

(** C5, amended: Escape while Zoomed(Windowed) closes and emits exactly one
    closed notification, whose reason is ESC; Escape while Closed changes
    nothing and emits nothing. The reason of every closed notification the
    component emits is one of ESC, OVERLAY_CLICK and CLOSE_BUTTON. *)
Theorem escape_windowed_closes (w : World) (e : KeyboardEvent) :
  is_escape e = true ->
  (viewState (element w) = Zoomed Windowed ->
   exists o,
     step (KeyDown e) w = Some o
     /\ viewState (element (next o)) = Closed
     /\ output o = [Dispatch (dw_image_closed (src (element w)) "ESC")]
     /\ completion o = Returned)
  /\ (viewState (element w) = Closed ->
      step (KeyDown e) w
      = Some {| next := w; output := []; completion := Returned |})
  /\ (forall i o image ux,
        step i w = Some o ->
        In (Dispatch (dw_image_closed image ux)) (output o) ->
        ux = "ESC" \/ ux = "OVERLAY_CLICK" \/ ux = "CLOSE_BUTTON").
Proof.
  intros He. split; [|split].
  - intros Hv.
    assert (Hz : Js.truthy (_isZoomMode (element w)) = true).
    { unfold viewState in Hv. now destruct (Js.truthy _). }
    destruct (escape_in_zoom_mode w e He Hz) as (o & Hs & Hz' & _ & Ho & Hc & _).
    exists o. repeat split; try assumption.
    unfold viewState. now rewrite Hz'.
  - intros Hv. apply keydown_ignored. right.
    unfold viewState in Hv. now destruct (Js.truthy _).
  - intros i o image ux Hs. now apply (closed_ux_values i w o).
Qed.

Lemma escape_windowed_closes_witness :
  (exists o,
     step (KeyDown escape_key) zoomed_windowed_page = Some o
     /\ viewState (element (next o)) = Closed
     /\ output o = [Dispatch (dw_image_closed (Some "a.jpg") "ESC")]
     /\ completion o = Returned)
  /\ step (KeyDown escape_key) page
     = Some {| next := page; output := []; completion := Returned |}.
Proof.
  split.
  - apply (proj1 (escape_windowed_closes zoomed_windowed_page escape_key
                    eq_refl)).
    reflexivity.
  - apply (proj1 (proj2 (escape_windowed_closes page escape_key eq_refl))).
    reflexivity.
Defined.

(** The fullscreen example page is where the component gets by a click on
    the image, a click on the toggle and the platform's confirmation. *)
Lemma zoomed_fullscreen_page_reached :
  option_map fst
    (run [ImgClick [host]; FullScreenClick [overlay_div; host];
          FullscreenChange true] page)
  = Some zoomed_fullscreen_page.
Proof. reflexivity. Qed.

Lemma zoomed_windowed_page_reached :
  option_map fst (run [ImgClick [host]] page) = Some zoomed_windowed_page.
Proof. reflexivity. Qed.

(** C1 as stated does not hold: on the fullscreen example page Escape closes
    the overlay and a closed notification goes out. *)
Lemma escape_in_fullscreen_not_suppressed :
  viewState (element zoomed_fullscreen_page) = Zoomed Fullscreen
  /\ option_map (fun o => viewState (element (next o)))
       (step (KeyDown escape_key) zoomed_fullscreen_page)
     = Some Closed
  /\ option_map output (step (KeyDown escape_key) zoomed_fullscreen_page)
     = Some [Dispatch (dw_image_closed (Some "a.jpg") "ESC")].
Proof. repeat split. Qed.

(** C1, amended: [__keydown] tests the zoom flag only. Escape while
    Zoomed(Fullscreen) sets the view to Closed and emits exactly one closed
    notification with reason ESC; the handler leaves the Fullscreen flag
    set. *)
Theorem escape_fullscreen_closes (w : World) (e : KeyboardEvent) :
  is_escape e = true ->
  viewState (element w) = Zoomed Fullscreen ->
  exists o,
    step (KeyDown e) w = Some o
    /\ viewState (element (next o)) = Closed
    /\ fullscreen_flag (element (next o)) = true
    /\ output o = [Dispatch (dw_image_closed (src (element w)) "ESC")]
    /\ completion o = Returned.
Proof.
  intros He Hv.
  assert (Hz : Js.truthy (_isZoomMode (element w)) = true
               /\ fullscreen_flag (element w) = true).
  { unfold viewState in Hv.
    destruct (Js.truthy _); [|discriminate].
    destruct (fullscreen_flag _); [now split | discriminate]. }
  destruct Hz as [Hz Hf].
  destruct (escape_in_zoom_mode w e He Hz) as (o & Hs & Hz' & Hfs & Ho & Hc & _).
  exists o. repeat split; try assumption.
  - unfold viewState. now rewrite Hz'.
  - unfold fullscreen_flag in *. now rewrite Hfs.
Qed.

Lemma escape_fullscreen_closes_witness :
  exists o,
    step (KeyDown escape_key) zoomed_fullscreen_page = Some o
    /\ viewState (element (next o)) = Closed
    /\ fullscreen_flag (element (next o)) = true
    /\ output o = [Dispatch (dw_image_closed (Some "a.jpg") "ESC")]
    /\ completion o = Returned.
Proof.
  apply (escape_fullscreen_closes zoomed_fullscreen_page escape_key);
    reflexivity.
Defined.

(** ** Clicks that reach the host *)

(** The host's listener on a click outside the image and the controls, with
    the Fullscreen flag clear: the zoom flag is set to [false] and a closed
    notification with [ux: 'OVERLAY_CLICK'] goes out, whatever the zoom flag
    was. *)
Lemma outside_click_windowed (w : World) (e : MouseEvent) :
  (forall el, In el (paths e) -> is_zoom_ui el = false) ->
  fullscreen_flag (element w) = false ->
  exists o,
    step (HostClick e) w = Some o
    /\ _isZoomMode (element (next o)) = Some false
    /\ _fullScreen (element (next o)) = _fullScreen (element w)
    /\ output o = [Dispatch (dw_image_closed (src (element w)) "OVERLAY_CLICK")]
    /\ completion o = Returned
    /\ timers (next o) = timers w.
Proof.
  intros Hout Hf. apply outsideImageClick_spec in Hout.
  open_world w. unfold fullscreen_flag in Hf. simpl in Hf.
  unfold step, listeners, __onClick. simpl. rewrite Hf, Hout.
  flag zm; (eexists; split; [reflexivity|]; simpl; repeat split;
            apply app_nil_r).
Qed.

(** With the Fullscreen flag set the host's listener returns at once. *)
Lemma host_click_in_fullscreen (w : World) (e : MouseEvent) :
  fullscreen_flag (element w) = true ->
  step (HostClick e) w
  = Some {| next := w; output := []; completion := Returned |}.
Proof.
  intros Hf. rewrite <- (world_eta w) at 2.
  unfold step, listeners, __onClick. unfold fullscreen_flag in Hf.
  simpl. rewrite Hf. simpl. now rewrite app_nil_r.
Qed.

Lemma viewState_Zoomed (el : DwImage) (m : Mode) :
  viewState el = Zoomed m ->
  Js.truthy (_isZoomMode el) = true
  /\ fullscreen_flag el = match m with Fullscreen => true | Windowed => false end.
Proof.
  unfold viewState. destruct (Js.truthy _); [|discriminate].
  destruct (fullscreen_flag el); intros [= <-]; now split.
Qed.

Lemma viewState_Closed (el : DwImage) :
  viewState el = Closed <-> Js.truthy (_isZoomMode el) = false.
Proof.
  unfold viewState. destruct (Js.truthy _); split; congruence.
Qed.

(** C9: a click whose propagation path contains neither the image nor a
    known control closes the overlay with reason OVERLAY_CLICK while
    Zoomed(Windowed), and does nothing while Zoomed(Fullscreen). *)
Theorem click_outside_zoom_ui (w : World) (e : MouseEvent) :
  (forall el, In el (paths e) -> is_zoom_ui el = false) ->
  (viewState (element w) = Zoomed Windowed ->
   exists o,
     step (HostClick e) w = Some o
     /\ viewState (element (next o)) = Closed
     /\ output o = [Dispatch (dw_image_closed (src (element w)) "OVERLAY_CLICK")]
     /\ completion o = Returned)
  /\ (viewState (element w) = Zoomed Fullscreen ->
      step (HostClick e) w
      = Some {| next := w; output := []; completion := Returned |}).
Proof.
  intros Hout. split; intros Hv; apply viewState_Zoomed in Hv as [_ Hf].
  - destruct (outside_click_windowed w e Hout Hf)
      as (o & Hs & Hz & _ & Ho & Hc & _).
    exists o. repeat split; try assumption.
    apply viewState_Closed. now rewrite Hz.
  - now apply host_click_in_fullscreen.
Qed.

Lemma overlay_click_is_outside (el : Element) :
  In el (paths overlay_click) -> is_zoom_ui el = false.
Proof.
  intros Hin. simpl in Hin.
  repeat (destruct Hin as [<- | Hin]; [reflexivity|]). destruct Hin.
Qed.

Lemma click_outside_zoom_ui_witness :
  (exists o,
     step (HostClick overlay_click) zoomed_windowed_page = Some o
     /\ viewState (element (next o)) = Closed
     /\ output o = [Dispatch (dw_image_closed (Some "a.jpg") "OVERLAY_CLICK")]
     /\ completion o = Returned)
  /\ step (HostClick overlay_click) zoomed_fullscreen_page
     = Some {| next := zoomed_fullscreen_page; output := [];
               completion := Returned |}.
Proof.
  split.
  - apply (proj1 (click_outside_zoom_ui zoomed_windowed_page overlay_click
                    overlay_click_is_outside)).
    reflexivity.
  - apply (proj2 (click_outside_zoom_ui zoomed_fullscreen_page overlay_click
                    overlay_click_is_outside)).
    reflexivity.
Defined.

(** C10: the host's listener does not look at the zoom flag. A click outside
    the image and the controls while the view is Closed and the Fullscreen
    flag is clear still emits a closed notification with reason
    OVERLAY_CLICK (and the view stays Closed), whereas Escape while Closed
    emits nothing. *)
Theorem closed_view_outside_click_notifies (w : World) (e : MouseEvent)
  (k : KeyboardEvent) :
  (forall el, In el (paths e) -> is_zoom_ui el = false) ->
  viewState (element w) = Closed ->
  fullscreen_flag (element w) = false ->
  (exists o,
     step (HostClick e) w = Some o
     /\ viewState (element (next o)) = Closed
     /\ output o = [Dispatch (dw_image_closed (src (element w)) "OVERLAY_CLICK")])
  /\ option_map output (step (KeyDown k) w) = Some [].
Proof.
  intros Hout Hv Hf. split.
  - destruct (outside_click_windowed w e Hout Hf)
      as (o & Hs & Hz & _ & Ho & _).
    exists o. repeat split; try assumption.
    apply viewState_Closed. now rewrite Hz.
  - rewrite keydown_ignored; [reflexivity|].
    right. now apply viewState_Closed.
Qed.

Lemma closed_view_outside_click_notifies_witness :
  (exists o,
     step (HostClick overlay_click) page = Some o
     /\ viewState (element (next o)) = Closed
     /\ output o = [Dispatch (dw_image_closed (Some "a.jpg") "OVERLAY_CLICK")])
  /\ option_map output (step (KeyDown escape_key) page) = Some [].
Proof.
  apply (closed_view_outside_click_notifies page overlay_click escape_key
           overlay_click_is_outside);
    reflexivity.
Defined.

(** ** The click on the inline image *)

Lemma img_click_disabled (w : World) (anc : list Element) :
  Js.truthy (disableZoom (element w)) = true ->
  step (ImgClick anc) w
  = Some {| next := w; output := []; completion := Returned |}.
Proof.
  intros Hd. rewrite <- (world_eta w) at 2.
  unfold step, listeners.
  rewrite onClick_on_control by reflexivity.
  unfold _setZoomMode. simpl. rewrite Hd. simpl. now rewrite app_nil_r.
Qed.

Lemma img_click_enabled (w : World) (anc : list Element) :
  Js.truthy (disableZoom (element w)) = false ->
  exists o,
    step (ImgClick anc) w = Some o
    /\ _isZoomMode (element (next o)) = Some true
    /\ _fullScreen (element (next o)) = _fullScreen (element w)
    /\ output o = [Dispatch (dw_image_opened (src (element w)))]
    /\ completion o = Returned
    /\ timers (next o) = timers w.
Proof.
  intros Hd. open_world w.
  unfold step, listeners.
  rewrite onClick_on_control by reflexivity.
  unfold _setZoomMode. simpl. rewrite Hd.
  flag zm; (eexists; split; [reflexivity|]; simpl; repeat split;
            apply app_nil_r).
Qed.

Lemma img_clicks_disabled (w : World) (ancs : list (list Element)) :
  Js.truthy (disableZoom (element w)) = true ->
  run (map ImgClick ancs) w = Some (w, []).
Proof.
  intros Hd. induction ancs as [|anc ancs IH]; cbn [run map]; [reflexivity|].
  rewrite (img_click_disabled w anc Hd). cbn [next output]. now rewrite IH.
Qed.

(** C8 as stated does not hold: the view can be Closed with the Fullscreen
    flag set (here after the platform reported a fullscreen change for
    another element of the document), and the click on the inline image then
    takes it to Zoomed(Fullscreen), not to Zoomed(Windowed). *)
Lemma image_click_with_flag_set :
  option_map fst (run [FullscreenChange true] page) = Some closed_flagged_page
  /\ viewState (element closed_flagged_page) = Closed
  /\ Js.truthy (disableZoom (element closed_flagged_page)) = false
  /\ option_map (fun o => (viewState (element (next o)), output o))
       (step (ImgClick [host]) closed_flagged_page)
     = Some (Zoomed Fullscreen, [Dispatch (dw_image_opened (Some "a.jpg"))]).
Proof. repeat split. Qed.

(** C8, amended: while [disableZoom] is true a click on the inline image,
    and any number of them, leaves the view Closed (the whole state is
    unchanged) and emits nothing; while it is false the click takes the view
    from Closed to Zoomed and emits exactly one opened notification,
    carrying [src]. The click does not touch the Fullscreen flag: the view
    is Zoomed(Windowed) if the flag was clear and Zoomed(Fullscreen) if it
    was set. *)
Theorem inline_image_click (w : World) (anc : list Element) :
  viewState (element w) = Closed ->
  (Js.truthy (disableZoom (element w)) = true ->
   step (ImgClick anc) w
   = Some {| next := w; output := []; completion := Returned |}
   /\ forall ancs, run (map ImgClick ancs) w = Some (w, []))
  /\ (Js.truthy (disableZoom (element w)) = false ->
      exists o,
        step (ImgClick anc) w = Some o
        /\ viewState (element (next o))
           = Zoomed (if fullscreen_flag (element w) then Fullscreen
                     else Windowed)
        /\ fullscreen_flag (element (next o)) = fullscreen_flag (element w)
        /\ output o = [Dispatch (dw_image_opened (src (element w)))]
        /\ completion o = Returned).
Proof.
  intros Hv. split; intros Hd.
  - split; [now apply img_click_disabled|].
    intros ancs. now apply img_clicks_disabled.
  - destruct (img_click_enabled w anc Hd) as (o & Hs & Hz & Hfs & Ho & Hc & _).
    exists o. repeat split; try assumption.
    + unfold viewState, fullscreen_flag. now rewrite Hz, Hfs.
    + unfold fullscreen_flag. now rewrite Hfs.
Qed.

Lemma inline_image_click_witness :
  (step (ImgClick [host]) disabled_page
   = Some {| next := disabled_page; output := []; completion := Returned |}
   /\ forall ancs, run (map ImgClick ancs) disabled_page
                   = Some (disabled_page, []))
  /\ (exists o,
        step (ImgClick [host]) page = Some o
        /\ viewState (element (next o)) = Zoomed Windowed
        /\ fullscreen_flag (element (next o)) = false
        /\ output o = [Dispatch (dw_image_opened (Some "a.jpg"))]
        /\ completion o = Returned)
  /\ (exists o,
        step (ImgClick [host]) closed_flagged_page = Some o
        /\ viewState (element (next o)) = Zoomed Fullscreen
        /\ fullscreen_flag (element (next o)) = true
        /\ output o = [Dispatch (dw_image_opened (Some "a.jpg"))]
        /\ completion o = Returned).
Proof.
  split; [|split].
  - apply (proj1 (inline_image_click disabled_page [host] eq_refl)).
    reflexivity.
  - apply (proj2 (inline_image_click page [host] eq_refl)).
    reflexivity.
  - apply (proj2 (inline_image_click closed_flagged_page [host] eq_refl)).
    reflexivity.
Defined.

(** The scenario of the specification: [src="a.jpg"], [zoomSrc="a_hi.jpg"],
    zoom enabled, one click. *)
Example scenario_click :
  option_map
    (fun o => (viewState (element (next o)),
               option_map zoom_img_src (_zoomImageTemplate (element (next o))),
               output o))
    (step (ImgClick [host]) page)
  = Some (Zoomed Windowed, Some (Some "a_hi.jpg"),
          [Dispatch (dw_image_opened (Some "a.jpg"))]).
Proof. reflexivity. Qed.

(** ** The fullscreen toggle *)

(** A click on the rendered [full-screen] button in zoom mode: the handler
    sets [_fullScreen] at once, and the update that follows requests
    fullscreen and dispatches the notification. *)
Lemma toggle_click_windowed (w : World) (anc : list Element) :
  viewState (element w) = Zoomed Windowed ->
  Js.truthy (disableZoom (element w)) = false ->
  step (FullScreenClick anc) w
  = Some {| next := {| element := with_fullScreen (Some true) (element w);
                       document := document w;
                       elementApi := elementApi w;
                       timers := timers w |};
            output :=
              map Platform (if fullscreenElement (document w) then []
                            else first_request (elementApi w))
              ++ [Dispatch (dw_image_fullscreen (src (element w)) true)];
            completion := Returned |}.
Proof.
  intros Hv Hd. apply viewState_Zoomed in Hv as [Hz Hf].
  unfold fullscreen_flag in Hf.
  unfold step, listeners, _zoomImageTemplate. rewrite Hz, Hd, Hf. simpl.
  rewrite onClick_on_control by reflexivity.
  unfold performUpdate, set_fullScreen. simpl.
  assert (Hne : Js.strict_eq (_fullScreen (element w)) (Some true) = false).
  { destruct (_fullScreen (element w)) as [[|]|]; [discriminate | | ]; reflexivity. }
  rewrite Hne. simpl.
  rewrite updated_fullScreen_set; try reflexivity; try assumption.
  simpl. now rewrite app_nil_r.
Qed.

(** The platform's confirmation, arriving with the flag already set, changes
    nothing in the element and puts nothing out. *)
Lemma confirmation_is_silent (w : World) :
  _fullScreen (element w) = Some true ->
  step (FullscreenChange true) w
  = Some {| next := {| element := element w;
                       document := set_fullscreenElement true (document w);
                       elementApi := elementApi w;
                       timers := timers w |};
            output := [];
            completion := Returned |}.
Proof.
  intros Hf. unfold step, listeners, __fullScreenChange, set_fullScreen.
  simpl. rewrite Hf. simpl. now rewrite app_nil_r.
Qed.

(** C3 as stated does not hold: on the example page the click on the toggle
    puts out the request and, in the same step, the notification, while the
    document still has no fullscreen element; the platform's confirmation,
    when it comes, puts out nothing. *)
Lemma notification_precedes_confirmation :
  viewState (element zoomed_windowed_page) = Zoomed Windowed
  /\ option_map (fun o => (output o, fullscreenElement (document (next o))))
       (step (FullScreenClick [overlay_div; host]) zoomed_windowed_page)
     = Some ([Platform call_requestFullscreen;
              Dispatch (dw_image_fullscreen (Some "a.jpg") true)], false)
  /\ option_map snd
       (run [FullScreenClick [overlay_div; host]; FullscreenChange true]
          zoomed_windowed_page)
     = Some [Platform call_requestFullscreen;
             Dispatch (dw_image_fullscreen (Some "a.jpg") true)].
Proof. repeat split. Qed.

(** C3, amended: a click on the fullscreen toggle while Zoomed(Windowed)
    sets the Fullscreen flag itself; in the update that follows, the
    component issues a fullscreen request (by the first request function the
    overlay has, and only if the document has no fullscreen element) and
    right after it, before any platform notification, emits
    fullscreen-changed with enabled true. The platform's confirmation then
    changes nothing and emits nothing. *)
Theorem toggle_click_notifies_at_once (w : World) (anc : list Element) :
  viewState (element w) = Zoomed Windowed ->
  Js.truthy (disableZoom (element w)) = false ->
  exists o,
    step (FullScreenClick anc) w = Some o
    /\ output o
       = map Platform (if fullscreenElement (document w) then []
                       else first_request (elementApi w))
         ++ [Dispatch (dw_image_fullscreen (src (element w)) true)]
    /\ completion o = Returned
    /\ fullscreen_flag (element (next o)) = true
    /\ document (next o) = document w
    /\ option_map (fun o' => (element (next o'), output o'))
         (step (FullscreenChange true) (next o))
       = Some (element (next o), []).
Proof.
  intros Hv Hd. eexists. split; [now apply toggle_click_windowed|].
  cbn [next output completion element document].
  do 4 (split; [reflexivity|]).
  now rewrite confirmation_is_silent.
Qed.

Lemma toggle_click_notifies_at_once_witness :
  exists o,
    step (FullScreenClick [overlay_div; host]) zoomed_windowed_page = Some o
    /\ output o
       = [Platform call_requestFullscreen;
          Dispatch (dw_image_fullscreen (Some "a.jpg") true)]
    /\ completion o = Returned
    /\ fullscreen_flag (element (next o)) = true
    /\ document (next o) = modern_document
    /\ option_map (fun o' => (element (next o'), output o'))
         (step (FullscreenChange true) (next o))
       = Some (element (next o), []).
Proof.
  apply (toggle_click_notifies_at_once zoomed_windowed_page [overlay_div; host]);
    reflexivity.
Defined.

(** ** A declined fullscreen request *)

(** The component has no listener for a failed request: a platform that
    declines sends it nothing, so the state after the click is the state it
    stays in. *)

(** C4 as stated does not hold: after the click on the toggle, with the
    document still without a fullscreen element and no notification from the
    platform, the component is in Zoomed(Fullscreen); a click on the
    overlay, which would close a windowed view, is now ignored. *)
Lemma declined_request_not_windowed :
  viewState (element zoomed_windowed_page) = Zoomed Windowed
  /\ option_map
       (fun o => (viewState (element (next o)),
                  fullscreenElement (document (next o))))
       (step (FullScreenClick [overlay_div; host]) zoomed_windowed_page)
     = Some (Zoomed Fullscreen, false)
  /\ option_map (fun r => viewState (element (fst r)))
       (run [FullScreenClick [overlay_div; host]; HostClick overlay_click]
          zoomed_windowed_page)
     = Some (Zoomed Fullscreen)
  /\ option_map (fun r => viewState (element (fst r)))
       (run [HostClick overlay_click] zoomed_windowed_page)
     = Some Closed.
Proof. repeat split. Qed.

(** C4, amended: when the platform declines the request (no fullscreen
    change is notified), nothing undoes the click: the Fullscreen flag stays
    set, so the component is in Zoomed(Fullscreen), and the
    fullscreen-changed notification with enabled true has gone out. The
    click's update completes normally, registers no timer and issues at most
    one request; no later input other than a new click on the toggle issues
    a request. *)
Theorem declined_request_keeps_flag (w : World) (anc : list Element) :
  viewState (element w) = Zoomed Windowed ->
  Js.truthy (disableZoom (element w)) = false ->
  exists o,
    step (FullScreenClick anc) w = Some o
    /\ viewState (element (next o)) = Zoomed Fullscreen
    /\ In (Dispatch (dw_image_fullscreen (src (element w)) true)) (output o)
    /\ completion o = Returned
    /\ timers (next o) = timers w
    /\ (List.length (filter is_request (output o)) <= 1)%nat
    /\ (forall i o',
          match i with FullScreenClick _ => False | _ => True end ->
          step i (next o) = Some o' ->
          filter is_request (output o') = []).
Proof.
  intros Hv Hd. eexists. split; [now apply toggle_click_windowed|].
  cbn [next output completion element timers].
  apply viewState_Zoomed in Hv as [Hz Hf].
  split.
  { unfold viewState, fullscreen_flag. simpl. now rewrite Hz. }
  split.
  { apply in_or_app. right. now left. }
  do 2 (split; [reflexivity|]).
  split.
  { rewrite filter_app. simpl. rewrite app_nil_r.
    destruct (fullscreenElement (document w)); simpl; [lia|].
    unfold first_request. break_match; simpl; lia. }
  intros i o' Hi Hs. exact (requests_only_on_toggle i _ o' Hs Hi).
Qed.

Lemma declined_request_keeps_flag_witness :
  exists o,
    step (FullScreenClick [overlay_div; host]) zoomed_windowed_page = Some o
    /\ viewState (element (next o)) = Zoomed Fullscreen
    /\ In (Dispatch (dw_image_fullscreen (Some "a.jpg") true)) (output o)
    /\ completion o = Returned
    /\ timers (next o) = []
    /\ (List.length (filter is_request (output o)) <= 1)%nat
    /\ (forall i o',
          match i with FullScreenClick _ => False | _ => True end ->
          step i (next o) = Some o' ->
          filter is_request (output o') = []).
Proof.
  apply (declined_request_keeps_flag zoomed_windowed_page [overlay_div; host]);
    reflexivity.
Defined.

(** ** The close control *)

Lemma from_update_not_closed (l : list Effect) :
  Forall from_update l -> filter is_closed_event (dispatched l) = [].
Proof.
  induction 1 as [|x l Hx _ IH]; simpl; [reflexivity|].
  destruct x as [[im|im ux|im en]|c]; simpl; try exact IH; destruct Hx.
Qed.

(** The click on the close button: the flag is cleared if it was set, one
    timer of 100 ms is registered, and all that goes out comes from the
    update. *)
Lemma close_click (w : World) (anc : list Element) :
  Js.truthy (_isZoomMode (element w)) = true ->
  Js.truthy (disableZoom (element w)) = false ->
  exists o,
    step (CloseClick anc) w = Some o
    /\ _isZoomMode (element (next o)) = _isZoomMode (element w)
    /\ fullscreen_flag (element (next o)) = false
    /\ src (element (next o)) = src (element w)
    /\ timers (next o) = timers w ++ [100%Z]
    /\ Forall from_update (output o).
Proof.
  intros Hz Hd. unfold step, listeners, _zoomImageTemplate.
  rewrite Hz, Hd. simpl.
  rewrite onClick_on_control by reflexivity.
  eexists. split; [reflexivity|]. cbn [next output element timers].
  unfold _closeZoomImage, set_fullScreen, setTimeout, fullscreen_flag.
  destruct (_fullScreen (element w)) as [[|]|] eqn:Hf; simpl;
    rewrite ?Hf; simpl; rewrite ?Hf; repeat split;
    try apply performUpdate_from_update; constructor.
Qed.

(** A pending timer running out: the deferred close. *)
Lemma timer_fires (w : World) :
  timers w <> [] ->
  exists o,
    step TimerFires w = Some o
    /\ _isZoomMode (element (next o)) = Some false
    /\ _fullScreen (element (next o)) = _fullScreen (element w)
    /\ output o = [Dispatch (dw_image_closed (src (element w)) "CLOSE_BUTTON")]
    /\ completion o = Returned
    /\ timers (next o) = tl (timers w).
Proof.
  intros Ht. open_world w. destruct ts as [|t ts]; [congruence|].
  unfold step, listeners, _closeZoomImage_deferred. simpl.
  flag zm; (eexists; split; [reflexivity|]; simpl; repeat split;
            apply app_nil_r).
Qed.

(** C6: a click on the close control while Zoomed(Fullscreen) first clears
    the Fullscreen flag: after the click the view is still Zoomed, now
    Windowed, no closed notification has gone out, and one timer of 100 ms
    has been added. When that timer runs out the view becomes Closed and
    exactly one closed notification with reason CLOSE_BUTTON goes out. Every
    pending timer does so once, when it runs out, and is then gone. *)
Theorem close_control_in_fullscreen (w : World) (anc : list Element) :
  viewState (element w) = Zoomed Fullscreen ->
  Js.truthy (disableZoom (element w)) = false ->
  exists o1,
    step (CloseClick anc) w = Some o1
    /\ fullscreen_flag (element (next o1)) = false
    /\ viewState (element (next o1)) = Zoomed Windowed
    /\ filter is_closed_event (dispatched (output o1)) = []
    /\ timers (next o1) = timers w ++ [100%Z]
    /\ (timers w = [] ->
        exists o2,
          step TimerFires (next o1) = Some o2
          /\ viewState (element (next o2)) = Closed
          /\ fullscreen_flag (element (next o2)) = false
          /\ output o2
             = [Dispatch (dw_image_closed (src (element w)) "CLOSE_BUTTON")]
          /\ timers (next o2) = [])
    /\ (forall w', timers w' <> [] ->
        exists o',
          step TimerFires w' = Some o'
          /\ viewState (element (next o')) = Closed
          /\ output o'
             = [Dispatch (dw_image_closed (src (element w')) "CLOSE_BUTTON")]
          /\ timers (next o') = tl (timers w')).
Proof.
  intros Hv Hd. apply viewState_Zoomed in Hv as [Hz _].
  destruct (close_click w anc Hz Hd) as (o1 & Hs & Hz1 & Hf1 & Hsrc & Ht1 & Hu).
  exists o1. split; [exact Hs|]. split; [exact Hf1|]. split.
  { unfold viewState. rewrite Hf1.
    replace (Js.truthy (_isZoomMode (element (next o1)))) with true;
      [reflexivity | now rewrite Hz1]. }
  split; [now apply from_update_not_closed|].
  split; [exact Ht1|]. split.
  - intros Hnil. rewrite Hnil in Ht1. simpl in Ht1.
    destruct (timer_fires (next o1)) as (o2 & Hs2 & Hz2 & Hf2 & Ho2 & _ & Ht2);
      [rewrite Ht1; discriminate|].
    exists o2. split; [exact Hs2|]. split.
    { apply viewState_Closed. now rewrite Hz2. }
    split.
    { unfold fullscreen_flag in *. now rewrite Hf2. }
    split.
    { now rewrite Ho2, Hsrc. }
    now rewrite Ht2, Ht1.
  - intros w' Hne.
    destruct (timer_fires w' Hne) as (o' & Hs' & Hz' & _ & Ho' & _ & Ht').
    exists o'. split; [exact Hs'|]. split.
    { apply viewState_Closed. now rewrite Hz'. }
    now split.
Qed.

Lemma close_control_in_fullscreen_witness :
  exists o1,
    step (CloseClick [overlay_div; host]) zoomed_fullscreen_page = Some o1
    /\ fullscreen_flag (element (next o1)) = false
    /\ viewState (element (next o1)) = Zoomed Windowed
    /\ filter is_closed_event (dispatched (output o1)) = []
    /\ timers (next o1) = [] ++ [100%Z]
    /\ (exists o2,
          step TimerFires (next o1) = Some o2
          /\ viewState (element (next o2)) = Closed
          /\ fullscreen_flag (element (next o2)) = false
          /\ output o2
             = [Dispatch (dw_image_closed (Some "a.jpg") "CLOSE_BUTTON")]
          /\ timers (next o2) = []).
Proof.
  destruct (close_control_in_fullscreen zoomed_fullscreen_page
              [overlay_div; host] eq_refl eq_refl)
    as (o1 & H1 & H2 & H3 & H4 & H5 & H6 & _).
  exists o1. repeat (split; [assumption|]). exact (H6 eq_refl).
Defined.

(** The whole trace on the example page. *)
Example close_control_trace :
  run [CloseClick [overlay_div; host]; TimerFires] zoomed_fullscreen_page
  = Some (connected
            (with_isZoomMode (Some false)
               (with_fullScreen (Some false) zoomed_fullscreen_el))
            (set_fullscreenElement true modern_document) modern_api,
          [Platform call_exitFullscreen;
           Dispatch (dw_image_fullscreen (Some "a.jpg") false);
           Dispatch (dw_image_closed (Some "a.jpg") "CLOSE_BUTTON")]).
Proof. reflexivity. Qed.

(** ** The Fullscreen flag and the view *)

(** The listeners that take the view to Closed, and what they do to the
    flag: the host's click listener runs only with the flag clear; Escape
    and the deferred close do not touch [_fullScreen]. No other listener
    closes. *)
Lemma listeners_closing (i : Input) (w : World) :
  match listeners i w with
  | Some (_, a) =>
      viewState (element w) <> Closed ->
      viewState (this a) = Closed ->
      match i with
      | HostClick _ => fullscreen_flag (this a) = false
      | KeyDown _ | TimerFires => _fullScreen (this a) = _fullScreen (element w)
      | _ => False
      end
  | None => True
  end.
Proof.
  unfold viewState, fullscreen_flag.
  destruct i; unfold_listeners; unfold _zoomImageTemplate; simpl;
    try destruct b; simpl; break_match; simpl; intros;
    try discriminate; try congruence; auto.
Qed.

(** The close button's listener leaves the flag clear and the zoom flag as
    it was. *)
Lemma listeners_close_click (anc : list Element) (w : World) :
  match listeners (CloseClick anc) w with
  | Some (_, a) =>
      fullscreen_flag (this a) = false
      /\ _isZoomMode (this a) = _isZoomMode (element w)
  | None => True
  end.
Proof.
  unfold fullscreen_flag.
  open_world w. unfold_listeners; unfold _zoomImageTemplate; simpl.
  destruct fs as [[|]|]; simpl; break_match; simpl; auto.
Qed.

(** The platform's notification copies [document.fullscreenElement] into
    [_fullScreen], whatever the zoom flag is. *)
Lemma listeners_fullscreen_change (b : bool) (w : World) :
  match listeners (FullscreenChange b) w with
  | Some (_, a) =>
      _fullScreen (this a) = Some b
      /\ _isZoomMode (this a) = _isZoomMode (element w)
  | None => True
  end.
Proof.
  open_world w. unfold_listeners.
  destruct b, fs as [[|]|]; simpl; auto.
Qed.

(** C2 as stated does not hold. The platform's fullscreen-change
    notification, which the component listens to on [window], sets the flag
    while the view is Closed (here on the page as loaded, for another
    element of the document going fullscreen); and Escape on the fullscreen
    example page takes the view to Closed with the flag still set. *)
Lemma fullscreen_flag_not_tied_to_view :
  viewState (element page) = Closed
  /\ fullscreen_flag (element page) = false
  /\ option_map
       (fun o => (viewState (element (next o)),
                  fullscreen_flag (element (next o))))
       (step (FullscreenChange true) page)
     = Some (Closed, true)
  /\ viewState (element zoomed_fullscreen_page) = Zoomed Fullscreen
  /\ option_map
       (fun o => (viewState (element (next o)),
                  fullscreen_flag (element (next o))))
       (step (KeyDown escape_key) zoomed_fullscreen_page)
     = Some (Closed, true).
Proof. repeat split. Qed.

(** C2, amended. For every step of the component: the Fullscreen flag comes
    on only by the platform's fullscreen-change notification or by a click
    on the fullscreen toggle, which exists only while Zoomed; the view goes
    from Zoomed to Closed only by an outside click, which leaves the flag
    clear, or by Escape or the deferred close of the close control, which
    leave the flag as it was; the click on the close control, which comes
    before its deferred close, leaves the flag clear and the zoom flag as it
    was; and the platform's notification sets the flag to what the platform
    reports in any view state, leaving the zoom flag as it was. *)
Theorem fullscreen_flag_discipline (i : Input) (w : World) (o : Outcome) :
  step i w = Some o ->
  (fullscreen_flag (element w) = false ->
   fullscreen_flag (element (next o)) = true ->
   i = FullscreenChange true
   \/ ((exists anc, i = FullScreenClick anc)
       /\ viewState (element w) = Zoomed Windowed))
  /\ (viewState (element w) <> Closed ->
      viewState (element (next o)) = Closed ->
      match i with
      | HostClick _ => fullscreen_flag (element (next o)) = false
      | KeyDown _ | TimerFires =>
          _fullScreen (element (next o)) = _fullScreen (element w)
      | _ => False
      end)
  /\ match i with
     | CloseClick _ =>
         fullscreen_flag (element (next o)) = false
         /\ _isZoomMode (element (next o)) = _isZoomMode (element w)
     | FullscreenChange b =>
         _fullScreen (element (next o)) = Some b
         /\ _isZoomMode (element (next o)) = _isZoomMode (element w)
     | _ => True
     end.
Proof.
  intros Hs. destruct (step_inv i w o Hs) as (doc & a & Hl & He & _).
  rewrite He. split; [|split].
  - intros Hf. pose proof (listeners_flag_on i w Hf) as H.
    now rewrite Hl in H.
  - pose proof (listeners_closing i w) as H. now rewrite Hl in H.
  - destruct i as [ | | |anc| | |b| ]; try exact I.
    + pose proof (listeners_close_click anc w) as H. now rewrite Hl in H.
    + pose proof (listeners_fullscreen_change b w) as H. now rewrite Hl in H.
Qed.

Lemma fullscreen_flag_discipline_witness :
  fullscreen_flag (element (next closed_by_overlay_click)) = false
  /\ fullscreen_flag (element (next close_clicked_in_fullscreen)) = false
  /\ _isZoomMode (element (next close_clicked_in_fullscreen)) = Some true.
Proof.
  split.
  - apply (proj1 (proj2 (fullscreen_flag_discipline (HostClick overlay_click)
                           zoomed_windowed_page closed_by_overlay_click
                           eq_refl))).
    + discriminate.
    + reflexivity.
  - apply (proj2 (proj2 (fullscreen_flag_discipline
                           (CloseClick [overlay_div; host])
                           zoomed_fullscreen_page close_clicked_in_fullscreen
                           eq_refl))).
Defined.

(** * Further properties of the class *)

(** ** Leaving fullscreen by the exit button *)

(** The click on the rendered [exit-full-screen] button: the handler clears
    [_fullScreen], and the update runs [updated] on the changed key. *)
Lemma exit_click_step (w : World) (anc : list Element) :
  viewState (element w) = Zoomed Fullscreen ->
  Js.truthy (disableZoom (element w)) = false ->
  step (ExitFullScreenClick anc) w
  = Some {| next := {| element := with_fullScreen (Some false) (element w);
                       document := document w;
                       elementApi := elementApi w;
                       timers := timers w |};
            output :=
              fst (updated [key_fullScreen] (document w) (elementApi w)
                     (with_fullScreen (Some false) (element w)));
            completion :=
              snd (updated [key_fullScreen] (document w) (elementApi w)
                     (with_fullScreen (Some false) (element w))) |}.
Proof.
  intros Hv Hd. apply viewState_Zoomed in Hv as [Hz Hf].
  unfold fullscreen_flag in Hf.
  unfold step, listeners, _zoomImageTemplate. rewrite Hz, Hd, Hf. simpl.
  rewrite onClick_on_control by reflexivity.
  unfold performUpdate, set_fullScreen. simpl.
  assert (Hne : Js.strict_eq (_fullScreen (element w)) (Some false) = false).
  { destruct (_fullScreen (element w)) as [[|]|]; try discriminate; reflexivity. }
  rewrite Hne. simpl. now rewrite app_nil_r.
Qed.

(** X1: a click on the exit-fullscreen button while Zoomed(Fullscreen), on
    a document that has [exitFullscreen] or [webkitExitFullscreen] or has no
    [msExitFullscreen]: the flag is cleared at once, the exit function is
    called only if the document has a fullscreen element, and the
    notification with enabled false goes out in the same update. *)
Theorem exit_button_leaves_fullscreen (w : World) (anc : list Element) :
  viewState (element w) = Zoomed Fullscreen ->
  Js.truthy (disableZoom (element w)) = false ->
  exitFullscreen (document w) || webkitExitFullscreen (document w)
  || negb (msExitFullscreen (document w)) = true ->
  step (ExitFullScreenClick anc) w
  = Some {| next := {| element := with_fullScreen (Some false) (element w);
                       document := document w;
                       elementApi := elementApi w;
                       timers := timers w |};
            output :=
              map Platform (if fullscreenElement (document w)
                            then first_exit (document w) else [])
              ++ [Dispatch (dw_image_fullscreen (src (element w)) false)];
            completion := Returned |}.
Proof.
  intros Hv Hd Hdoc. rewrite (exit_click_step w anc Hv Hd).
  apply viewState_Zoomed in Hv as [Hz _].
  unfold updated, _exitFullScreen, first_exit. simpl. rewrite Hz. simpl.
  destruct (document w) as [fe ex wex msx moz]. simpl in *.
  destruct fe, ex, wex, msx; try discriminate; reflexivity.
Qed.

Lemma exit_button_leaves_fullscreen_witness :
  step (ExitFullScreenClick [overlay_div; host]) zoomed_fullscreen_page
  = Some {| next := {| element := with_fullScreen (Some false)
                                    zoomed_fullscreen_el;
                       document := set_fullscreenElement true modern_document;
                       elementApi := modern_api;
                       timers := [] |};
            output := [Platform call_exitFullscreen;
                       Dispatch (dw_image_fullscreen (Some "a.jpg") false)];
            completion := Returned |}.
Proof.
  apply (exit_button_leaves_fullscreen zoomed_fullscreen_page
           [overlay_div; host]);
    reflexivity.
Defined.

(** X2: the third branch of [_exitFullScreen] tests [msExitFullscreen] and
    calls [mozCancelFullScreen]. On a fullscreen document that has only
    [msExitFullscreen] of the first three, the click on the exit button
    calls [mozCancelFullScreen] if it exists; if it does not, the update
    throws, no notification goes out, and the flag stays cleared. *)
Theorem exit_on_ms_only_document (w : World) (anc : list Element) :
  viewState (element w) = Zoomed Fullscreen ->
  Js.truthy (disableZoom (element w)) = false ->
  fullscreenElement (document w) = true ->
  exitFullscreen (document w) = false ->
  webkitExitFullscreen (document w) = false ->
  msExitFullscreen (document w) = true ->
  exists o,
    step (ExitFullScreenClick anc) w = Some o
    /\ element (next o) = with_fullScreen (Some false) (element w)
    /\ (mozCancelFullScreen (document w) = true ->
        output o = [Platform call_mozCancelFullScreen;
                    Dispatch (dw_image_fullscreen (src (element w)) false)]
        /\ completion o = Returned)
    /\ (mozCancelFullScreen (document w) = false ->
        output o = [] /\ completion o = ThrewTypeError).
Proof.
  intros Hv Hd Hfe Hex Hwex Hms. eexists.
  split; [apply (exit_click_step w anc Hv Hd)|].
  apply viewState_Zoomed in Hv as [Hz _].
  cbn [next output completion element].
  unfold updated, _exitFullScreen. simpl.
  rewrite Hz, Hfe, Hex, Hwex, Hms. simpl.
  split; [reflexivity|].
  split; intros Hmoz; rewrite Hmoz; split; reflexivity.
Qed.

Lemma exit_on_ms_only_document_witness :
  exists o,
    step (ExitFullScreenClick [overlay_div; host]) ms_only_page = Some o
    /\ element (next o) = with_fullScreen (Some false) zoomed_fullscreen_el
    /\ output o = [] /\ completion o = ThrewTypeError.
Proof.
  destruct (exit_on_ms_only_document ms_only_page [overlay_div; host]
              eq_refl eq_refl eq_refl eq_refl eq_refl eq_refl)
    as (o & Hs & He & _ & Hthrow).
  exists o. split; [exact Hs|]. split; [exact He|]. exact (Hthrow eq_refl).
Defined.

(** ** When an update throws *)

(** [updated] throws in two places only: reading the request function of a
    missing overlay, and calling a missing [mozCancelFullScreen]. *)
Lemma updated_throws changed doc api el :
  snd (updated changed doc api el) = ThrewTypeError ->
  (has key_fullScreen changed = true
   /\ Js.truthy (_fullScreen el) = true
   /\ fullscreenElement doc = false
   /\ _zoomImageTemplate el = None)
  \/ (Js.truthy (_isZoomMode el) = true
      /\ Js.truthy (_fullScreen el) = false
      /\ fullscreenElement doc = true
      /\ exitFullscreen doc = false
      /\ webkitExitFullscreen doc = false
      /\ msExitFullscreen doc = true
      /\ mozCancelFullScreen doc = false).
Proof.
  unfold updated, _requestFullScreen, _exitFullScreen, _requstedFullScreenEl.
  destruct (has key_fullScreen changed); simpl; [|discriminate].
  destruct (Js.truthy (_isZoomMode el)) eqn:Hz; simpl; [|discriminate].
  destruct (Js.truthy (_fullScreen el)); simpl.
  - destruct (fullscreenElement doc); simpl; [discriminate|].
    destruct (_zoomImageTemplate el); simpl.
    + break_match; discriminate.
    + intros _. left. repeat split.
  - destruct (fullscreenElement doc); simpl; [|discriminate].
    destruct (exitFullscreen doc); simpl; [discriminate|].
    destruct (webkitExitFullscreen doc); simpl; [discriminate|].
    destruct (msExitFullscreen doc); simpl; [|discriminate].
    destruct (mozCancelFullScreen doc); simpl; [discriminate|].
    intros _. right. repeat split.
Qed.

(** After the toggle's listener the overlay is still rendered. *)
Lemma listeners_toggle_overlay (anc : list Element) (w : World) :
  match listeners (FullScreenClick anc) w with
  | Some (_, a) => _zoomImageTemplate (this a) <> None
  | None => True
  end.
Proof.
  open_world w. unfold_listeners. unfold _zoomImageTemplate. simpl.
  destruct zm as [[|]|], dz as [[|]|], fs as [[|]|]; simpl;
    try exact I; discriminate.
Qed.

(** X3: whatever the input, the update of a step throws only on the exit
    path, with the flag cleared in zoom mode on a fullscreen document that
    has [msExitFullscreen] and none of [exitFullscreen],
    [webkitExitFullscreen] and [mozCancelFullScreen]. The request path
    never throws: whenever a request is attempted the overlay is there. *)
Theorem step_throws_only_on_ms_exit (i : Input) (w : World) (o : Outcome) :
  step i w = Some o ->
  completion o = ThrewTypeError ->
  Js.truthy (_isZoomMode (element (next o))) = true
  /\ fullscreen_flag (element (next o)) = false
  /\ fullscreenElement (document (next o)) = true
  /\ exitFullscreen (document (next o)) = false
  /\ webkitExitFullscreen (document (next o)) = false
  /\ msExitFullscreen (document (next o)) = true
  /\ mozCancelFullScreen (document (next o)) = false.
Proof.
  intros Hs Hc.
  destruct (step_inv i w o Hs) as (doc & a & Hl & He & Hd & _ & Hc').
  rewrite Hc' in Hc. rewrite He, Hd. unfold fullscreen_flag.
  unfold performUpdate in Hc.
  destruct (changedProperties a) as [|k ks] eqn:Hch; [discriminate|].
  apply updated_throws in Hc as [(Hh & Hf & Hfe & Ht) | H]; [|exact H].
  exfalso. rewrite <- Hch in Hh.
  destruct i as [anc|anc|anc|anc|e|e|b| ];
    try (match type of Hl with
         | listeners ?j w = _ =>
             pose proof (listeners_no_request j w I) as Hn
         end;
         rewrite Hl in Hn; destruct Hn as [Hn | [Hn | Hn]]; congruence).
  pose proof (listeners_toggle_overlay anc w) as Ho. rewrite Hl in Ho.
  contradiction.
Qed.

Lemma step_throws_only_on_ms_exit_witness :
  Js.truthy (_isZoomMode (with_fullScreen (Some false) zoomed_fullscreen_el))
  = true
  /\ fullscreen_flag (with_fullScreen (Some false) zoomed_fullscreen_el) = false
  /\ fullscreenElement (document ms_only_page) = true
  /\ exitFullscreen (document ms_only_page) = false
  /\ webkitExitFullscreen (document ms_only_page) = false
  /\ msExitFullscreen (document ms_only_page) = true
  /\ mozCancelFullScreen (document ms_only_page) = false.
Proof.
  exact (step_throws_only_on_ms_exit
           (ExitFullScreenClick [overlay_div; host]) ms_only_page
           {| next := {| element := with_fullScreen (Some false)
                                      zoomed_fullscreen_el;
                         document := document ms_only_page;
                         elementApi := elementApi ms_only_page;
                         timers := [] |};
              output := [];
              completion := ThrewTypeError |}
           eq_refl eq_refl).
Defined.

(** ** The platform's fullscreen-change notification *)

(** X4: when the platform reports a fullscreen change, the component stores
    what the document then says in [_fullScreen]; it dispatches its own
    notification, with that value, exactly when it is in zoom mode and the
    stored value differed (an [undefined] flag differs from [false]); it
    calls no platform function and does not throw. *)
Theorem platform_change_is_mirrored (w : World) (b : bool) :
  exists o,
    step (FullscreenChange b) w = Some o
    /\ _fullScreen (element (next o)) = Some b
    /\ _isZoomMode (element (next o)) = _isZoomMode (element w)
    /\ document (next o) = set_fullscreenElement b (document w)
    /\ output o
       = (if Js.truthy (_isZoomMode (element w))
             && negb (Js.strict_eq (_fullScreen (element w)) (Some b))
          then [Dispatch (dw_image_fullscreen (src (element w)) b)]
          else [])
    /\ completion o = Returned.
Proof.
  open_world w. destruct doc as [fe ex wex msx moz].
  unfold step, listeners, __fullScreenChange, set_fullScreen, performUpdate,
    updated, _requestFullScreen, _exitFullScreen. simpl.
  destruct b, fs as [[|]|], zm as [[|]|]; simpl;
    (eexists; split; [reflexivity|]; simpl; repeat split).
Qed.

(** ** What a step dispatches *)

(** A listener dispatches nothing or one event, of the kind its input
    allows. *)
Lemma listeners_effects_exact (i : Input) (w : World) :
  match listeners i w with
  | Some (_, a) =>
      effects a = []
      \/ exists ev,
           effects a = [Dispatch ev]
           /\ listener_event i (element w) (this a) ev
  | None => True
  end.
Proof.
  open_world w.
  destruct i; unfold_listeners; destruct zm as [[|]|]; simpl;
    break_match; simpl; auto;
    right; eexists; (split; [reflexivity|]); simpl; eauto 8.
Qed.

(** [updated] dispatches nothing or one fullscreen notification, which
    carries [src] and the truthiness of [_fullScreen]; it does so only in
    zoom mode for a changed [_fullScreen]. *)
Lemma updated_dispatched changed doc api el :
  dispatched (fst (updated changed doc api el)) = []
  \/ (dispatched (fst (updated changed doc api el))
      = [dw_image_fullscreen (src el) (Js.truthy (_fullScreen el))]
      /\ has key_fullScreen changed = true
      /\ Js.truthy (_isZoomMode el) = true).
Proof.
  unfold updated, _requestFullScreen, _exitFullScreen.
  destruct (has key_fullScreen changed); simpl; auto.
  destruct (Js.truthy (_isZoomMode el)); simpl; auto.
  destruct (Js.truthy (_fullScreen el)); simpl; break_match; simpl; auto.
Qed.

(** A listener that records [_fullScreen] as changed has given it another
    value. *)
Lemma listeners_fullScreen_changed (i : Input) (w : World) :
  match listeners i w with
  | Some (_, a) =>
      has key_fullScreen (changedProperties a) = true ->
      _fullScreen (this a) <> _fullScreen (element w)
  | None => True
  end.
Proof.
  open_world w.
  destruct i; unfold_listeners; unfold _zoomImageTemplate; simpl;
    try destruct b; destruct fs as [[|]|]; simpl;
    break_match; simpl; try exact I; intros; try discriminate.
Qed.

Lemma dispatched_app (l1 l2 : list Effect) :
  dispatched (l1 ++ l2) = dispatched l1 ++ dispatched l2.
Proof. unfold dispatched. apply flat_map_app. Qed.

Lemma In_dispatched (e : CustomEvent) (l : list Effect) :
  In (Dispatch e) l <-> In e (dispatched l).
Proof.
  unfold dispatched. rewrite in_flat_map. split.
  - intros H. exists (Dispatch e). split; [exact H | now left].
  - intros (x & Hx & Hin). destruct x as [e'|c]; simpl in Hin.
    + destruct Hin as [<- | []]. exact Hx.
    + destruct Hin.
Qed.

(** The events of a step: those of its listeners, then those of the
    update. *)
Lemma step_dispatched (i : Input) (w : World) (o : Outcome) :
  step i w = Some o ->
  exists doc a,
    listeners i w = Some (doc, a)
    /\ element (next o) = this a
    /\ dispatched (output o)
       = dispatched (effects a)
         ++ dispatched (fst (performUpdate doc (elementApi w) a)).
Proof.
  intros Hs. destruct (step_inv i w o Hs) as (doc & a & Hl & He & _ & Ho & _).
  exists doc, a. rewrite Ho, dispatched_app. now repeat split.
Qed.

Lemma performUpdate_dispatched doc api a :
  dispatched (fst (performUpdate doc api a)) = []
  \/ (dispatched (fst (performUpdate doc api a))
      = [dw_image_fullscreen (src (this a)) (Js.truthy (_fullScreen (this a)))]
      /\ has key_fullScreen (changedProperties a) = true
      /\ Js.truthy (_isZoomMode (this a)) = true).
Proof.
  unfold performUpdate. destruct (changedProperties a) eqn:Hc.
  - now left.
  - apply updated_dispatched.
Qed.

(** No listener assigns a public property, and only the platform's
    notification changes the document. *)
Lemma listeners_frame (i : Input) (w : World) :
  match listeners i w with
  | Some (doc, a) =>
      src (this a) = src (element w)
      /\ title (this a) = title (element w)
      /\ auto (this a) = auto (element w)
      /\ loading (this a) = loading (element w)
      /\ disableZoom (this a) = disableZoom (element w)
      /\ zoomSrc (this a) = zoomSrc (element w)
      /\ doc = match i with
               | FullscreenChange b => set_fullscreenElement b (document w)
               | _ => document w
               end
  | None => True
  end.
Proof.
  destruct i; unfold_listeners; break_match; simpl; repeat split.
Qed.

(** X5: in every step at most one fullscreen notification goes out, and one
    that does carries [src] and the new value of the Fullscreen flag, the
    component is then in zoom mode, and [_fullScreen] has changed in that
    step. *)
Theorem fullscreen_notification_reports_flag (i : Input) (w : World)
  (o : Outcome) :
  step i w = Some o ->
  (List.length (filter is_fullscreen_event (dispatched (output o))) <= 1)%nat
  /\ forall im en,
       In (Dispatch (dw_image_fullscreen im en)) (output o) ->
       im = src (element w)
       /\ en = fullscreen_flag (element (next o))
       /\ Js.truthy (_isZoomMode (element (next o))) = true
       /\ _fullScreen (element (next o)) <> _fullScreen (element w).
Proof.
  intros Hs. destruct (step_dispatched i w o Hs) as (doc & a & Hl & He & Hd).
  pose proof (listeners_effects_exact i w) as Hx.
  pose proof (listeners_fullScreen_changed i w) as Hch.
  pose proof (listeners_frame i w) as Hfr.
  rewrite Hl in Hx, Hch, Hfr. destruct Hfr as (Hsrc & _).
  assert (Hnone : filter is_fullscreen_event (dispatched (effects a)) = []
                  /\ forall im en,
                       ~ In (dw_image_fullscreen im en) (dispatched (effects a))).
  { destruct Hx as [-> | (ev & -> & Hev)]; simpl.
    - split; [reflexivity | tauto].
    - destruct ev; simpl in *; try contradiction;
        (split; [reflexivity | intros im' en' [H | []]; discriminate]). }
  destruct Hnone as [Hf Hnin].
  split.
  - rewrite Hd, filter_app, Hf. simpl.
    destruct (performUpdate_dispatched doc (elementApi w) a) as [-> | (-> & _)];
      simpl; lia.
  - intros im en Hin. apply In_dispatched in Hin. rewrite Hd in Hin.
    apply in_app_or in Hin as [Hin | Hin]; [now apply Hnin in Hin|].
    destruct (performUpdate_dispatched doc (elementApi w) a)
      as [Hp | (Hp & Hh & Hz)]; rewrite Hp in Hin; [destruct Hin|].
    destruct Hin as [[= <- <-] | []].
    rewrite He. unfold fullscreen_flag. repeat split; auto.
Qed.

Lemma fullscreen_notification_reports_flag_witness :
  (List.length (filter is_fullscreen_event (dispatched (output toggle_clicked)))
   <= 1)%nat
  /\ Some "a.jpg" = src (element zoomed_windowed_page)
  /\ true = fullscreen_flag (element (next toggle_clicked))
  /\ Js.truthy (_isZoomMode (element (next toggle_clicked))) = true
  /\ _fullScreen (element (next toggle_clicked))
     <> _fullScreen (element zoomed_windowed_page).
Proof.
  destruct (fullscreen_notification_reports_flag
              (FullScreenClick [overlay_div; host]) zoomed_windowed_page
              toggle_clicked eq_refl) as [Hlen Hin].
  split; [exact Hlen|].
  apply Hin. simpl. auto.
Defined.

(** X6: an opened notification goes out only in the step of a click on the
    inline image with zoom not disabled; it carries [src] and leaves the
    zoom flag set. And every such click dispatches one, in whatever state:
    [_setZoomMode] does not look at the zoom flag. *)
Theorem opened_only_by_image_click (w : World) :
  (forall i o im,
     step i w = Some o ->
     In (Dispatch (dw_image_opened im)) (output o) ->
     (exists anc, i = ImgClick anc)
     /\ Js.truthy (disableZoom (element w)) = false
     /\ im = src (element w)
     /\ _isZoomMode (element (next o)) = Some true)
  /\ (forall anc,
        Js.truthy (disableZoom (element w)) = false ->
        exists o,
          step (ImgClick anc) w = Some o
          /\ output o = [Dispatch (dw_image_opened (src (element w)))]).
Proof.
  split.
  - intros i o im Hs Hin.
    destruct (step_dispatched i w o Hs) as (doc & a & Hl & He & Hd).
    pose proof (listeners_effects_exact i w) as Hx. rewrite Hl in Hx.
    apply In_dispatched in Hin. rewrite Hd in Hin.
    apply in_app_or in Hin as [Hin | Hin].
    + destruct Hx as [Hx | (ev & Hx & Hev)]; rewrite Hx in Hin;
        simpl in Hin; [destruct Hin|].
      destruct Hin as [-> | []]. simpl in Hev.
      destruct Hev as (-> & Hi & Hdz & Hz). rewrite He. auto.
    + destruct (performUpdate_dispatched doc (elementApi w) a)
        as [Hp | (Hp & _)]; rewrite Hp in Hin; [destruct Hin|].
      destruct Hin as [H | []]. discriminate.
  - intros anc Hdz.
    destruct (img_click_enabled w anc Hdz) as (o & Hs & _ & _ & Ho & _).
    exists o. now split.
Qed.

Lemma opened_only_by_image_click_witness :
  exists o,
    step (ImgClick [host]) zoomed_fullscreen_page = Some o
    /\ output o = [Dispatch (dw_image_opened (Some "a.jpg"))].
Proof.
  apply (proj2 (opened_only_by_image_click zoomed_fullscreen_page) [host]).
  reflexivity.
Defined.

(** X7: no step assigns a public property: [src], [title], [auto],
    [loading], [disableZoom] and [zoomSrc] are after the step what they were
    before, so the inline image renders the same; the platform's element
    functions are untouched, and the document changes only by the
    platform's own notification. *)
Theorem step_keeps_configuration (i : Input) (w : World) (o : Outcome) :
  step i w = Some o ->
  src (element (next o)) = src (element w)
  /\ title (element (next o)) = title (element w)
  /\ auto (element (next o)) = auto (element w)
  /\ loading (element (next o)) = loading (element w)
  /\ disableZoom (element (next o)) = disableZoom (element w)
  /\ zoomSrc (element (next o)) = zoomSrc (element w)
  /\ inline (render (element (next o))) = inline (render (element w))
  /\ elementApi (next o) = elementApi w
  /\ document (next o)
     = match i with
       | FullscreenChange b => set_fullscreenElement b (document w)
       | _ => document w
       end.
Proof.
  intros Hs. pose proof (listeners_frame i w) as Hfr.
  unfold step in Hs. destruct (listeners i w) as [[doc a]|]; [|discriminate].
  injection Hs as <-. simpl.
  destruct Hfr as (H1 & H2 & H3 & H4 & H5 & H6 & H7).
  unfold render. simpl. rewrite H1, H2, H4, H5.
  repeat split; assumption.
Qed.

Lemma step_keeps_configuration_witness :
  src (element (next toggle_clicked)) = src (element zoomed_windowed_page)
  /\ title (element (next toggle_clicked)) = title (element zoomed_windowed_page)
  /\ auto (element (next toggle_clicked)) = auto (element zoomed_windowed_page)
  /\ loading (element (next toggle_clicked))
     = loading (element zoomed_windowed_page)
  /\ disableZoom (element (next toggle_clicked))
     = disableZoom (element zoomed_windowed_page)
  /\ zoomSrc (element (next toggle_clicked))
     = zoomSrc (element zoomed_windowed_page)
  /\ inline (render (element (next toggle_clicked)))
     = inline (render (element zoomed_windowed_page))
  /\ elementApi (next toggle_clicked) = elementApi zoomed_windowed_page
  /\ document (next toggle_clicked) = document zoomed_windowed_page.
Proof.
  exact (step_keeps_configuration (FullScreenClick [overlay_div; host])
           zoomed_windowed_page toggle_clicked eq_refl).
Defined.

(** X8: in every step at most one closed notification goes out; one that
    does carries [src], leaves the zoom flag [false], and has the reason of
    its input: ESC for an Escape key press, OVERLAY_CLICK for a click
    reaching the host, CLOSE_BUTTON for a timer running out. The clicks on
    the image and on the three buttons, and the platform's notification,
    dispatch none. *)
Theorem closed_reason_by_input (i : Input) (w : World) (o : Outcome) :
  step i w = Some o ->
  (List.length (filter is_closed_event (dispatched (output o))) <= 1)%nat
  /\ forall im ux,
       In (Dispatch (dw_image_closed im ux)) (output o) ->
       im = src (element w)
       /\ _isZoomMode (element (next o)) = Some false
       /\ match i with
          | KeyDown e => ux = "ESC" /\ is_escape e = true
          | HostClick _ => ux = "OVERLAY_CLICK"
          | TimerFires => ux = "CLOSE_BUTTON"
          | _ => False
          end.
Proof.
  intros Hs. destruct (step_dispatched i w o Hs) as (doc & a & Hl & He & Hd).
  pose proof (listeners_effects_exact i w) as Hx. rewrite Hl in Hx.
  assert (Hu : filter is_closed_event
                 (dispatched (fst (performUpdate doc (elementApi w) a))) = []
               /\ forall im ux,
                    ~ In (dw_image_closed im ux)
                        (dispatched (fst (performUpdate doc (elementApi w) a)))).
  { destruct (performUpdate_dispatched doc (elementApi w) a)
      as [-> | (-> & _)]; simpl.
    - split; [reflexivity | tauto].
    - split; [reflexivity | intros im ux [H | []]; discriminate]. }
  destruct Hu as [Hf Hnin]. split.
  - rewrite Hd, filter_app, Hf, app_nil_r.
    destruct Hx as [-> | (ev & -> & _)]; simpl; [lia|].
    destruct (is_closed_event ev); simpl; lia.
  - intros im ux Hin. apply In_dispatched in Hin. rewrite Hd in Hin.
    apply in_app_or in Hin as [Hin | Hin]; [|now apply Hnin in Hin].
    destruct Hx as [Hx | (ev & Hx & Hev)]; rewrite Hx in Hin;
      simpl in Hin; [destruct Hin|].
    destruct Hin as [-> | []]. simpl in Hev. rewrite He. exact Hev.
Qed.

Lemma closed_reason_by_input_witness :
  (List.length
     (filter is_closed_event (dispatched (output closed_by_overlay_click)))
   <= 1)%nat
  /\ Some "a.jpg" = src (element zoomed_windowed_page)
  /\ _isZoomMode (element (next closed_by_overlay_click)) = Some false
  /\ "OVERLAY_CLICK" = "OVERLAY_CLICK".
Proof.
  destruct (closed_reason_by_input (HostClick overlay_click)
              zoomed_windowed_page closed_by_overlay_click eq_refl)
    as [Hlen Hin].
  split; [exact Hlen|].
  apply (Hin (Some "a.jpg") "OVERLAY_CLICK"). simpl. auto.
Defined.

(** ** Timers over whole runs *)

(** Only the close button's listener registers a timer, one of 100 ms. *)
Lemma listeners_timeouts (i : Input) (w : World) :
  match listeners i w with
  | Some (_, a) => timeouts a = if is_CloseClick i then [100%Z] else []
  | None => True
  end.
Proof.
  destruct i; unfold_listeners; break_match; simpl; auto.
Qed.

Lemma step_timers (i : Input) (w : World) (o : Outcome) :
  step i w = Some o ->
  timers (next o)
  = remaining i (timers w) ++ (if is_CloseClick i then [100%Z] else [])
  /\ (is_TimerFires i = true -> timers w <> []).
Proof.
  intros Hs. pose proof (listeners_timeouts i w) as Ht.
  unfold step in Hs. destruct (listeners i w) as [[doc a]|] eqn:Hl;
    [|discriminate].
  injection Hs as <-. simpl. rewrite Ht. split; [reflexivity|].
  destruct i; try discriminate. intros _ Hnil.
  unfold listeners in Hl. rewrite Hnil in Hl. discriminate.
Qed.

(** A step dispatches a CLOSE_BUTTON notification exactly when it is a
    timer running out, and then one. *)
Lemma step_close_button_count (i : Input) (w : World) (o : Outcome) :
  step i w = Some o ->
  List.length (filter is_close_button_event (dispatched (output o)))
  = if is_TimerFires i then 1%nat else 0%nat.
Proof.
  intros Hs. destruct (is_TimerFires i) eqn:Hi.
  - destruct i; try discriminate.
    destruct (step_timers _ _ _ Hs) as [_ Hne].
    destruct (timer_fires w (Hne eq_refl)) as (o' & Hs' & _ & _ & Ho & _).
    rewrite Hs in Hs'. injection Hs' as <-. rewrite Ho. reflexivity.
  - destruct (step_dispatched i w o Hs) as (doc & a & Hl & _ & Hd).
    pose proof (listeners_effects_exact i w) as Hx. rewrite Hl in Hx.
    rewrite Hd, filter_app, length_app.
    replace (filter is_close_button_event
               (dispatched (fst (performUpdate doc (elementApi w) a))))
      with (@nil CustomEvent)
      by (destruct (performUpdate_dispatched doc (elementApi w) a)
            as [-> | (-> & _)]; reflexivity).
    destruct Hx as [-> | (ev & -> & Hev)]; [reflexivity|].
    destruct ev as [im|im ux|im en]; simpl in *; try reflexivity.
    destruct Hev as (_ & _ & Hux).
    destruct i; try contradiction; try discriminate.
    + now rewrite Hux.
    + destruct Hux as [-> _]. reflexivity.
Qed.

(** X9: over any run, the timers pending at the end are those pending at
    the start, plus one per click on the close button, minus one per timer
    that ran out; the CLOSE_BUTTON notifications dispatched are as many as
    the timers that ran out; and every timer is one of 100 ms if those at
    the start were. *)
Theorem run_timer_accounting (inputs : list Input) (w w' : World)
  (out : list Effect) :
  run inputs w = Some (w', out) ->
  (List.length (timers w') + List.length (filter is_TimerFires inputs)
   = List.length (timers w) + List.length (filter is_CloseClick inputs))%nat
  /\ List.length (filter is_close_button_event (dispatched out))
     = List.length (filter is_TimerFires inputs)
  /\ (Forall (fun d => d = 100%Z) (timers w) ->
      Forall (fun d => d = 100%Z) (timers w')).
Proof.
  revert w out. induction inputs as [|i rest IH]; intros w out Hr.
  - injection Hr as <- <-. simpl. repeat split; auto.
  - cbn [run] in Hr. destruct (step i w) as [o|] eqn:Hs; [|discriminate].
    destruct (run rest (next o)) as [[w2 out2]|] eqn:Hr2; [|discriminate].
    injection Hr as <- <-.
    destruct (IH _ _ Hr2) as (IHt & IHc & IHd).
    destruct (step_timers i w o Hs) as [Ht Hne].
    pose proof (step_close_button_count i w o Hs) as Hc.
    split; [|split].
    + rewrite Ht, length_app in IHt. cbn [filter].
      destruct i; simpl in *; try lia.
      destruct (timers w) as [|t ts]; [now specialize (Hne eq_refl)|].
      simpl in *. lia.
    + rewrite dispatched_app, filter_app, length_app, Hc, IHc. cbn [filter].
      destruct (is_TimerFires i); simpl; lia.
    + intros Hall. apply IHd. rewrite Ht. apply Forall_app. split.
      * destruct i; simpl; try exact Hall.
        destruct (timers w); [constructor | now inversion Hall].
      * destruct (is_CloseClick i); repeat constructor.
Qed.

Lemma run_timer_accounting_witness :
  (List.length (@nil Z)
   + List.length
       (filter is_TimerFires
          [CloseClick [overlay_div; host]; CloseClick [overlay_div; host];
           TimerFires; TimerFires])
   = List.length (timers zoomed_fullscreen_page)
     + List.length
         (filter is_CloseClick
            [CloseClick [overlay_div; host]; CloseClick [overlay_div; host];
             TimerFires; TimerFires]))%nat
  /\ List.length
       (filter is_close_button_event
          (dispatched
             [Platform call_exitFullscreen;
              Dispatch (dw_image_fullscreen (Some "a.jpg") false);
              Dispatch (dw_image_closed (Some "a.jpg") "CLOSE_BUTTON");
              Dispatch (dw_image_closed (Some "a.jpg") "CLOSE_BUTTON")]))
     = 2%nat.
Proof.
  destruct (run_timer_accounting
              [CloseClick [overlay_div; host]; CloseClick [overlay_div; host];
               TimerFires; TimerFires]
              zoomed_fullscreen_page
              (connected
                 (with_isZoomMode (Some false)
                    (with_fullScreen (Some false) zoomed_fullscreen_el))
                 (set_fullscreenElement true modern_document) modern_api)
              [Platform call_exitFullscreen;
               Dispatch (dw_image_fullscreen (Some "a.jpg") false);
               Dispatch (dw_image_closed (Some "a.jpg") "CLOSE_BUTTON");
               Dispatch (dw_image_closed (Some "a.jpg") "CLOSE_BUTTON")]
              eq_refl) as (H1 & H2 & _).
  split; [exact H1 | exact H2].
Defined.

(** ** The toggle and a whole fullscreen cycle *)




(** X11: while the overlay is rendered, exactly one of the two toggle
    buttons is there, the one that changes the flag: with the flag clear
    only [full-screen] can be clicked, the click sets the flag and the
    overlay then shows [exit-full-screen]; with the flag set it is the other
    way round. *)
Theorem toggle_button_alternates (w : World) (anc : list Element) :
  Js.truthy (_isZoomMode (element w)) = true ->
  Js.truthy (disableZoom (element w)) = false ->
  option_map toggle (_zoomImageTemplate (element w))
  = Some (if fullscreen_flag (element w) then exit_full_screen
          else full_screen)
  /\ (fullscreen_flag (element w) = false ->
      step (ExitFullScreenClick anc) w = None
      /\ exists o,
           step (FullScreenClick anc) w = Some o
           /\ fullscreen_flag (element (next o)) = true
           /\ option_map toggle (_zoomImageTemplate (element (next o)))
              = Some exit_full_screen)
  /\ (fullscreen_flag (element w) = true ->
      step (FullScreenClick anc) w = None
      /\ exists o,
           step (ExitFullScreenClick anc) w = Some o
           /\ fullscreen_flag (element (next o)) = false
           /\ option_map toggle (_zoomImageTemplate (element (next o)))
              = Some full_screen).
Proof.
  intros Hz Hd. split; [|split].
  - unfold _zoomImageTemplate, fullscreen_flag. now rewrite Hz, Hd.
  - intros Hf. split.
    + unfold step, listeners, _zoomImageTemplate.
      unfold fullscreen_flag in Hf. now rewrite Hz, Hd, Hf.
    + eexists. split.
      * apply toggle_click_windowed; [|exact Hd].
        unfold viewState. now rewrite Hz, Hf.
      * cbn [next element]. unfold fullscreen_flag, _zoomImageTemplate.
        simpl. now rewrite Hz, Hd.
  - intros Hf. split.
    + unfold step, listeners, _zoomImageTemplate.
      unfold fullscreen_flag in Hf. now rewrite Hz, Hd, Hf.
    + eexists. split.
      * apply exit_click_step; [|exact Hd].
        unfold viewState. now rewrite Hz, Hf.
      * cbn [next element]. unfold fullscreen_flag, _zoomImageTemplate.
        simpl. now rewrite Hz, Hd.
Qed.

Lemma toggle_button_alternates_witness :
  (step (ExitFullScreenClick [overlay_div; host]) zoomed_windowed_page = None
   /\ exists o,
        step (FullScreenClick [overlay_div; host]) zoomed_windowed_page
        = Some o
        /\ fullscreen_flag (element (next o)) = true
        /\ option_map toggle (_zoomImageTemplate (element (next o)))
           = Some exit_full_screen)
  /\ (step (FullScreenClick [overlay_div; host]) zoomed_fullscreen_page = None
      /\ exists o,
           step (ExitFullScreenClick [overlay_div; host]) zoomed_fullscreen_page
           = Some o
           /\ fullscreen_flag (element (next o)) = false
           /\ option_map toggle (_zoomImageTemplate (element (next o)))
              = Some full_screen).
Proof.
  split.
  - apply (proj1 (proj2 (toggle_button_alternates zoomed_windowed_page
                           [overlay_div; host] eq_refl eq_refl))).
    reflexivity.
  - apply (proj2 (proj2 (toggle_button_alternates zoomed_fullscreen_page
                           [overlay_div; host] eq_refl eq_refl))).
    reflexivity.
Defined.

(** ** The listeners' lifecycle *)

Lemma Registration_eqb_eq (a b : Registration) :
  Registration_eqb a b = true <-> a = b.
Proof.
  destruct a as [ta ya la], b as [tb yb lb]. unfold Registration_eqb. simpl.
  rewrite !andb_true_iff, String.eqb_eq. split.
  - intros [[Ht Hy] Hl]. subst.
    destruct ta, tb; try discriminate; destruct la, lb; try discriminate;
      reflexivity.
  - intros [= -> -> ->]. now destruct tb, lb.
Qed.

Lemma Registration_eqb_refl (a : Registration) : Registration_eqb a a = true.
Proof. now apply Registration_eqb_eq. Qed.

Lemma registered_add_same (r : Registration) (regs : list Registration) :
  registered r (addEventListener r regs) = true.
Proof.
  unfold registered, addEventListener.
  destruct (existsb (Registration_eqb r) regs) eqn:H; [exact H|].
  rewrite existsb_app. simpl. rewrite Registration_eqb_refl.
  now rewrite orb_true_r.
Qed.

Lemma registered_add_other (r r' : Registration) (regs : list Registration) :
  registered r (addEventListener r' regs)
  = registered r regs || Registration_eqb r r'.
Proof.
  unfold registered, addEventListener.
  destruct (existsb (Registration_eqb r') regs) eqn:H.
  - destruct (Registration_eqb r r') eqn:He; [|now rewrite orb_false_r].
    apply Registration_eqb_eq in He. subst. now rewrite H.
  - rewrite existsb_app. simpl. now rewrite orb_false_r.
Qed.

Lemma registered_remove (r r' : Registration) (regs : list Registration) :
  registered r (removeEventListener r' regs)
  = registered r regs && negb (Registration_eqb r' r).
Proof.
  unfold registered, removeEventListener.
  induction regs as [|x regs IH]; simpl; [reflexivity|].
  destruct (Registration_eqb r' x) eqn:Hx; simpl.
  - rewrite IH. apply Registration_eqb_eq in Hx. subst x.
    destruct (Registration_eqb r r') eqn:Hr; simpl.
    + apply Registration_eqb_eq in Hr. subst.
      rewrite Registration_eqb_refl. simpl. now rewrite andb_false_r.
    + reflexivity.
  - rewrite IH. destruct (Registration_eqb r x) eqn:Hr; simpl; [|reflexivity].
    apply Registration_eqb_eq in Hr. subst x. now rewrite Hx.
Qed.

Lemma remove_not_registered (r : Registration) (regs : list Registration) :
  registered r regs = false -> removeEventListener r regs = regs.
Proof.
  unfold registered, removeEventListener.
  induction regs as [|x regs IH]; simpl; [reflexivity|].
  intros H. apply orb_false_iff in H as [Hx Hr].
  rewrite Hx. simpl. now rewrite IH.
Qed.

Lemma remove_add_same (r : Registration) (regs : list Registration) :
  removeEventListener r (addEventListener r regs) = removeEventListener r regs.
Proof.
  unfold addEventListener.
  destruct (existsb (Registration_eqb r) regs); [reflexivity|].
  unfold removeEventListener. rewrite filter_app. simpl.
  rewrite Registration_eqb_refl. simpl. apply app_nil_r.
Qed.

Lemma remove_add_other (r r' : Registration) (regs : list Registration) :
  Registration_eqb r r' = false ->
  removeEventListener r (addEventListener r' regs)
  = addEventListener r' (removeEventListener r regs).
Proof.
  intros Hne. unfold addEventListener.
  fold (registered r' regs). fold (registered r' (removeEventListener r regs)).
  rewrite registered_remove, Hne. simpl. rewrite andb_true_r.
  destruct (registered r' regs); [reflexivity|].
  unfold removeEventListener. rewrite filter_app. simpl. now rewrite Hne.
Qed.

Lemma add_registered (r : Registration) (regs : list Registration) :
  registered r regs = true -> addEventListener r regs = regs.
Proof. unfold registered, addEventListener. now intros ->. Qed.

Lemma listeners_disconnected (regs : list Registration) :
  registered click_registration (disconnectedCallback regs) = false
  /\ registered keydown_registration (disconnectedCallback regs) = false
  /\ registered fullscreenchange_registration (disconnectedCallback regs)
     = false.
Proof.
  unfold disconnectedCallback. repeat split;
    rewrite !registered_remove; simpl;
    rewrite ?andb_false_r; reflexivity.
Qed.

(** X12: [connectedCallback] leaves the three listeners registered, and
    registering again adds nothing; [disconnectedCallback] leaves none of
    them registered, and undoes [connectedCallback]: it removes the very
    registrations that one makes (same target, type and bound function), so
    a registry that had none of the three is after connect and disconnect
    what it was. *)
Theorem listeners_registered_and_removed (regs : list Registration) :
  (registered click_registration (connectedCallback regs) = true
   /\ registered keydown_registration (connectedCallback regs) = true
   /\ registered fullscreenchange_registration (connectedCallback regs) = true)
  /\ connectedCallback (connectedCallback regs) = connectedCallback regs
  /\ (registered click_registration (disconnectedCallback regs) = false
      /\ registered keydown_registration (disconnectedCallback regs) = false
      /\ registered fullscreenchange_registration (disconnectedCallback regs)
         = false)
  /\ disconnectedCallback (connectedCallback regs) = disconnectedCallback regs
  /\ (registered click_registration regs = false ->
      registered keydown_registration regs = false ->
      registered fullscreenchange_registration regs = false ->
      disconnectedCallback (connectedCallback regs) = regs).
Proof.
  assert (Hconn :
    registered click_registration (connectedCallback regs) = true
    /\ registered keydown_registration (connectedCallback regs) = true
    /\ registered fullscreenchange_registration (connectedCallback regs) = true).
  { unfold connectedCallback. repeat split.
    - rewrite 2!registered_add_other, registered_add_same. reflexivity.
    - rewrite registered_add_other, registered_add_same. reflexivity.
    - apply registered_add_same. }
  assert (Hundo :
    disconnectedCallback (connectedCallback regs) = disconnectedCallback regs).
  { unfold disconnectedCallback, connectedCallback.
    rewrite 2!(remove_add_other click_registration) by reflexivity.
    rewrite remove_add_same.
    rewrite (remove_add_other keydown_registration) by reflexivity.
    rewrite remove_add_same.
    now rewrite remove_add_same. }
  split; [exact Hconn|]. split; [|split; [|split]].
  - destruct Hconn as (H1 & H2 & H3).
    unfold connectedCallback at 1.
    rewrite (add_registered click_registration) by exact H1.
    rewrite (add_registered keydown_registration) by exact H2.
    now rewrite (add_registered fullscreenchange_registration) by exact H3.
  - apply listeners_disconnected.
  - exact Hundo.
  - intros H1 H2 H3. rewrite Hundo. unfold disconnectedCallback.
    rewrite (remove_not_registered click_registration) by exact H1.
    rewrite (remove_not_registered keydown_registration) by exact H2.
    now rewrite (remove_not_registered fullscreenchange_registration)
      by exact H3.
Qed.

Lemma listeners_registered_and_removed_witness :
  disconnectedCallback (connectedCallback []) = [].
Proof.
  apply (proj2 (proj2 (proj2 (proj2 (listeners_registered_and_removed [])))));
    reflexivity.
Defined.

(** X13: after [disconnectedCallback] a key press and a click on the host
    reach no listener: nothing changes and nothing goes out, also for Escape
    in zoom mode; a fullscreen change leaves the element as it is. The
    class cancels no timer: one that is pending still runs out, sets the
    zoom flag to [false] and dispatches a closed notification with reason
    CLOSE_BUTTON. *)
Theorem after_disconnect (regs : list Registration) (w : World) :
  (forall e,
     deliver (disconnectedCallback regs) (KeyDown e) w
     = Some {| next := w; output := []; completion := Returned |})
  /\ (forall e,
        deliver (disconnectedCallback regs) (HostClick e) w
        = Some {| next := w; output := []; completion := Returned |})
  /\ (forall b,
        deliver (disconnectedCallback regs) (FullscreenChange b) w
        = Some {| next := {| element := element w;
                             document := set_fullscreenElement b (document w);
                             elementApi := elementApi w;
                             timers := timers w |};
                  output := [];
                  completion := Returned |})
  /\ (timers w <> [] ->
      exists o,
        deliver (disconnectedCallback regs) TimerFires w = Some o
        /\ _isZoomMode (element (next o)) = Some false
        /\ output o
           = [Dispatch (dw_image_closed (src (element w)) "CLOSE_BUTTON")]
        /\ timers (next o) = tl (timers w)).
Proof.
  destruct (listeners_disconnected regs) as (H1 & H2 & H3).
  unfold deliver. rewrite H1, H2, H3. repeat split.
  intros Ht. destruct (timer_fires w Ht) as (o & Hs & Hz & _ & Ho & _ & Ht').
  exists o. now repeat split.
Qed.

Lemma after_disconnect_witness :
  exists o,
    deliver (disconnectedCallback (connectedCallback [])) TimerFires
      close_pending_page = Some o
    /\ _isZoomMode (element (next o)) = Some false
    /\ output o = [Dispatch (dw_image_closed (Some "a.jpg") "CLOSE_BUTTON")]
    /\ timers (next o) = [].
Proof.
  apply (proj2 (proj2 (proj2 (after_disconnect (connectedCallback [])
                                close_pending_page)))).
  discriminate.
Defined.

(** ** Zoom disabled *)

(** The zoom flag comes on only by a click on the inline image with zoom
    not disabled. *)
Lemma listeners_zoom_on (i : Input) (w : World) :
  match listeners i w with
  | Some (_, a) =>
      Js.truthy (_isZoomMode (this a)) = true ->
      Js.truthy (_isZoomMode (element w)) = true
      \/ ((exists anc, i = ImgClick anc)
          /\ Js.truthy (disableZoom (element w)) = false)
  | None => True
  end.
Proof.
  open_world w.
  destruct i; unfold_listeners; unfold _zoomImageTemplate; simpl;
    destruct zm as [[|]|]; simpl; break_match; simpl;
    try exact I; intros; try discriminate; eauto.
Qed.

(** Outside zoom mode the update puts nothing out. *)
Lemma performUpdate_outside_zoom doc api a :
  Js.truthy (_isZoomMode (this a)) = false ->
  performUpdate doc api a = done.
Proof.
  intros Hz. unfold performUpdate.
  destruct (changedProperties a); [reflexivity|].
  unfold updated. now rewrite Hz, andb_false_r.
Qed.

Lemma step_disabled (i : Input) (w : World) (o : Outcome) :
  step i w = Some o ->
  Js.truthy (disableZoom (element w)) = true ->
  Js.truthy (_isZoomMode (element w)) = false ->
  Js.truthy (disableZoom (element (next o))) = true
  /\ Js.truthy (_isZoomMode (element (next o))) = false
  /\ Forall (fun x => match x with
                      | Dispatch (dw_image_closed _ _) => True
                      | _ => False
                      end) (output o)
  /\ completion o = Returned.
Proof.
  intros Hs Hd Hz.
  destruct (step_inv i w o Hs) as (doc & a & Hl & He & _ & Ho & Hc).
  pose proof (listeners_zoom_on i w) as Hon.
  pose proof (listeners_frame i w) as Hfr.
  pose proof (listeners_effects_exact i w) as Hx.
  rewrite Hl in Hon, Hfr, Hx.
  destruct Hfr as (_ & _ & _ & _ & Hdz & _).
  assert (Hz' : Js.truthy (_isZoomMode (this a)) = false).
  { destruct (Js.truthy (_isZoomMode (this a))); [|reflexivity].
    destruct (Hon eq_refl) as [H | (_ & H)]; congruence. }
  rewrite He, Hdz, Ho, Hc, (performUpdate_outside_zoom _ _ _ Hz').
  simpl. rewrite app_nil_r. repeat split; try assumption.
  destruct Hx as [-> | (ev & -> & Hev)]; [constructor|].
  constructor; [|constructor].
  destruct ev as [im|im ux|im en]; simpl in Hev; try exact I.
  - destruct Hev as (_ & _ & Hf & _). congruence.
  - destruct Hev.
Qed.

(** X14: a component with [disableZoom] set that is not in zoom mode stays
    so over any run: the zoom flag never comes on, so no overlay is ever
    rendered; no opened or fullscreen notification goes out and no platform
    function is called; no update throws. All it can still dispatch is
    closed notifications. *)
Theorem disabled_zoom_is_inert (inputs : list Input) (w w' : World)
  (out : list Effect) :
  Js.truthy (disableZoom (element w)) = true ->
  Js.truthy (_isZoomMode (element w)) = false ->
  run inputs w = Some (w', out) ->
  Js.truthy (disableZoom (element w')) = true
  /\ Js.truthy (_isZoomMode (element w')) = false
  /\ overlay (render (element w')) = None
  /\ Forall (fun x => match x with
                      | Dispatch (dw_image_closed _ _) => True
                      | _ => False
                      end) out.
Proof.
  revert w out. induction inputs as [|i rest IH]; intros w out Hd Hz Hr.
  - injection Hr as <- <-. repeat split; try assumption; [|constructor].
    unfold render, _zoomImageTemplate. simpl. now rewrite Hz.
  - cbn [run] in Hr. destruct (step i w) as [o|] eqn:Hs; [|discriminate].
    destruct (run rest (next o)) as [[w2 out2]|] eqn:Hr2; [|discriminate].
    injection Hr as <- <-.
    destruct (step_disabled i w o Hs Hd Hz) as (Hd1 & Hz1 & Ho & _).
    destruct (IH _ _ Hd1 Hz1 Hr2) as (Hd2 & Hz2 & Hov & Hout).
    repeat split; try assumption. apply Forall_app. now split.
Qed.

Lemma disabled_zoom_is_inert_witness :
  Js.truthy (disableZoom (element disabled_page_after_run)) = true
  /\ Js.truthy (_isZoomMode (element disabled_page_after_run)) = false
  /\ overlay (render (element disabled_page_after_run)) = None
  /\ Forall (fun x => match x with
                      | Dispatch (dw_image_closed _ _) => True
                      | _ => False
                      end)
       [Dispatch (dw_image_closed (Some "a.jpg") "OVERLAY_CLICK")].
Proof.
  exact (disabled_zoom_is_inert
           [ImgClick [host]; KeyDown escape_key; HostClick overlay_click;
            FullscreenChange true]
           disabled_page disabled_page_after_run
           [Dispatch (dw_image_closed (Some "a.jpg") "OVERLAY_CLICK")]
           eq_refl eq_refl eq_refl).
Defined.

(** ** Calls to the platform *)

(** The platform calls of [updated]: a request for a flag newly set on a
    document without fullscreen element, an exit for a flag newly cleared
    on a document with one. *)
Lemma updated_calls changed doc api el c :
  In (Platform c) (fst (updated changed doc api el)) ->
  has key_fullScreen changed = true
  /\ ((Js.truthy (_fullScreen el) = true /\ fullscreenElement doc = false
       /\ is_request_call c = true)
      \/ (Js.truthy (_fullScreen el) = false /\ fullscreenElement doc = true
          /\ is_exit_call c = true)).
Proof.
  unfold updated, _requestFullScreen, _exitFullScreen.
  destruct (has key_fullScreen changed); simpl; [|tauto].
  destruct (Js.truthy (_isZoomMode el)); simpl; [|tauto].
  destruct (Js.truthy (_fullScreen el)), (fullscreenElement doc); simpl;
    break_match; simpl; intros H;
    repeat match goal with
      | H : _ \/ _ |- _ => destruct H
      | H : False |- _ => destruct H
      | H : Dispatch _ = Platform _ |- _ => discriminate H
      | H : Platform _ = Platform _ |- _ => injection H as <-
      end;
    split; auto.
Qed.

(** After a listener other than those of the exit and close buttons, the
    update has no ground for an exit call. *)
Lemma listeners_no_exit (i : Input) (w : World) :
  match i with
  | ExitFullScreenClick _ | CloseClick _ => False
  | _ => True
  end ->
  match listeners i w with
  | Some (doc, a) =>
      has key_fullScreen (changedProperties a) = false
      \/ Js.truthy (_fullScreen (this a)) = true
      \/ fullscreenElement doc = false
  | None => True
  end.
Proof.
  intros Hi. open_world w.
  destruct i; try contradiction; unfold_listeners;
    unfold _zoomImageTemplate; simpl;
    try destruct b; destruct fs as [[|]|]; simpl; break_match; simpl; auto.
Qed.

(** X15: the component calls a fullscreen function of the platform only in
    the step of a click on one of its buttons: a request function only for
    a click on the fullscreen toggle, an exit function only for a click on
    the exit button or on the close button. Clicks on the image or the
    host, key presses, timers and the platform's own notifications never
    lead to a call. *)
Theorem platform_calls_only_on_button_clicks (i : Input) (w : World)
  (o : Outcome) (c : PlatformCall) :
  step i w = Some o ->
  In (Platform c) (output o) ->
  match i with
  | FullScreenClick _ => is_request_call c = true
  | ExitFullScreenClick _ | CloseClick _ => is_exit_call c = true
  | _ => False
  end.
Proof.
  intros Hs Hin.
  destruct (step_inv i w o Hs) as (doc & a & Hl & _ & _ & Ho & _).
  pose proof (listeners_effects i w) as He. rewrite Hl in He.
  rewrite Ho in Hin. apply in_app_or in Hin as [Hin | Hin].
  { rewrite Forall_forall in He. destruct (He _ Hin). }
  unfold performUpdate in Hin.
  destruct (changedProperties a) as [|k ks] eqn:Hch; [destruct Hin|].
  rewrite <- Hch in Hin.
  apply updated_calls in Hin as [Hh [(Hf & Hfe & Hc) | (Hf & Hfe & Hc)]].
  - destruct i as [anc|anc|anc|anc|e|e|b| ]; try exact Hc;
      (match type of Hl with
       | listeners ?j w = _ =>
           pose proof (listeners_no_request j w I) as Hn
       end;
       rewrite Hl in Hn; destruct Hn as [Hn | [Hn | Hn]]; congruence).
  - destruct i as [anc|anc|anc|anc|e|e|b| ]; try exact Hc;
      (match type of Hl with
       | listeners ?j w = _ =>
           pose proof (listeners_no_exit j w I) as Hn
       end;
       rewrite Hl in Hn; destruct Hn as [Hn | [Hn | Hn]]; congruence).
Qed.

Lemma platform_calls_only_on_button_clicks_witness :
  is_request_call call_requestFullscreen = true.
Proof.
  apply (platform_calls_only_on_button_clicks
           (FullScreenClick [overlay_div; host]) zoomed_windowed_page
           toggle_clicked call_requestFullscreen eq_refl).
  simpl. auto.
Defined.
